(** * example_params_ui_tutorial: the trigger-form parameters and the
      show_params task

    A shallow embedding of
    [airflow/example_dags/example_params_ui_tutorial.py]:

    - the [params] dictionary handed to [DAG(...)], entry by entry;
    - the task [show_params], as a computation over a store made of the
      keyword arguments it receives and the standard output it prints to;
    - the part of Python's [json.dumps(obj, indent=4)] that the task calls;
    - the other arguments of [DAG(...)], with the string and path methods
      they call;
    - the script of the colour picker in [custom_html_form].

    Python strings are sequences of Unicode code points, integers are
    unbounded, dictionaries keep insertion order. *)

From Stdlib Require Import ZArith NArith List String Ascii DecimalString
  DecimalZ DecimalPos Lia.
From stdpp Require Import base list gmap strings.

Local Open Scope list_scope.
Set Warnings "-register-all".

(** ** Python strings *)

Module PyStr.

(** A Python [str]: its code points, in order. *)
Definition pystr : Type := list N.

(** A literal of plain characters. *)
Definition lit (s : string) : pystr :=
  List.map N_of_ascii (list_ascii_of_string s).

(** The double-quote character, code point 34. *)
Definition dquote : N := 34%N.

(** Source texts that contain double quotes are transcribed with a grave
    accent (code point 96) standing for each of them; the transcribed texts
    contain no grave accent of their own. *)
Definition src_char (c : N) : N := if N.eqb c 96 then dquote else c.

Definition src (s : string) : pystr := List.map src_char (lit s).

(** [sep.join(parts)]. *)
Fixpoint join (sep : pystr) (parts : list pystr) : pystr :=
  match parts with
  | [] => []
  | [p] => p
  | p :: rest => p ++ sep ++ join sep rest
  end.

(** Source texts that span several lines, one line per element. *)
Definition src_lines (ls : list string) : pystr :=
  join (lit (String (ascii_of_nat 10) EmptyString)) (List.map src ls).

(** [s * n] for a string [s]. *)
Fixpoint repeat_str (s : pystr) (n : nat) : pystr :=
  match n with
  | O => []
  | S n' => s ++ repeat_str s n'
  end.

(** [needle in hay]: the needle occurs as a contiguous block of the hay. *)
Definition occurs_in (needle hay : pystr) : Prop :=
  exists before after, hay = before ++ needle ++ after.

Fixpoint starts_with (p s : pystr) : bool :=
  match p, s with
  | [], _ => true
  | _ :: _, [] => false
  | a :: p', b :: s' => N.eqb a b && starts_with p' s'
  end.

(** The executable version of [occurs_in]. *)
Fixpoint occurs_inb (needle hay : pystr) : bool :=
  starts_with needle hay ||
  match hay with
  | [] => false
  | _ :: hay' => occurs_inb needle hay'
  end.

(** [str(n)] for an integer, in decimal. *)
Definition int_repr (z : Z) : pystr :=
  lit (NilZero.string_of_int (Z.to_int z)).

End PyStr.
Import PyStr.

(** ** Python values and [json.dumps] *)

(** Floating-point numbers are kept abstract: a type of floats, the text
    the JSON encoder writes for one ([float.__repr__], or [NaN], [Infinity],
    [-Infinity]) and its truth value ([x != 0.0]). *)
Class PyFloat : Type := {
  pyfloat : Type;
  float_json : pyfloat -> pystr;
  float_truth : pyfloat -> bool
}.

Section Values.
Context {F : PyFloat}.

(** The values a run configuration is made of: what [json.loads] produces.
    A dictionary is its items in insertion order. *)
Inductive pyval : Type :=
  | PNone
  | PBool (b : bool)
  | PInt (z : Z)
  | PFloat (x : pyfloat)
  | PStr (s : pystr)
  | PList (elems : list pyval)
  | PDict (items : list (pystr * pyval)).

(** [bool(v)], the test behind [if not v]. *)
Definition truthy (v : pyval) : bool :=
  match v with
  | PNone => false
  | PBool b => b
  | PInt z => negb (Z.eqb z 0)
  | PFloat x => float_truth x
  | PStr s => negb (Nat.eqb (List.length s) 0)
  | PList elems => negb (Nat.eqb (List.length elems) 0)
  | PDict items => negb (Nat.eqb (List.length items) 0)
  end.

(** One lower-case hexadecimal digit. *)
Definition hex_digit (d : N) : N :=
  if N.ltb d 10 then (48 + d)%N else (87 + d)%N.

(** ['{0:04x}'.format(n)] for [n < 65536]. *)
Definition hex4 (n : N) : pystr :=
  [ hex_digit (N.land (N.shiftr n 12) 15);
    hex_digit (N.land (N.shiftr n 8) 15);
    hex_digit (N.land (N.shiftr n 4) 15);
    hex_digit (N.land n 15) ].

Definition backslash : N := 92%N.

(** The replacement [py_encode_basestring_ascii] makes for one character:
    the backslash and the double quote are escaped, the other characters
    from space to tilde stand for themselves, and everything else is
    written as a short escape or as [\uXXXX] (a surrogate pair above the
    basic plane). *)
Definition escape_char (c : N) : pystr :=
  if N.eqb c backslash then [backslash; backslash]
  else if N.eqb c dquote then [backslash; dquote]
  else if N.leb 32 c && N.leb c 126 then [c]
  else if N.eqb c 8 then [backslash; 98%N]
  else if N.eqb c 12 then [backslash; 102%N]
  else if N.eqb c 10 then [backslash; 110%N]
  else if N.eqb c 13 then [backslash; 114%N]
  else if N.eqb c 9 then [backslash; 116%N]
  else if N.ltb c 65536 then [backslash; 117%N] ++ hex4 c
  else
    let n := (c - 65536)%N in
    let s1 := N.lor 55296 (N.land (N.shiftr n 10) 1023) in
    let s2 := N.lor 56320 (N.land n 1023) in
    [backslash; 117%N] ++ hex4 s1 ++ [backslash; 117%N] ++ hex4 s2.

Definition encode_basestring_ascii (s : pystr) : pystr :=
  [dquote] ++ List.concat (List.map escape_char s) ++ [dquote].

(** ['\n' + _indent * _current_indent_level] *)
Definition newline_indent (indent : pystr) (level : nat) : pystr :=
  10%N :: repeat_str indent level.

(** The text [_make_iterencode] yields for a value at a nesting level, all
    chunks joined, with an indent string set, the item separator [","] and
    the key separator [": "]. *)
Fixpoint iterencode (indent : pystr) (level : nat) (v : pyval) : pystr :=
  match v with
  | PStr s => encode_basestring_ascii s
  | PNone => lit "null"
  | PBool true => lit "true"
  | PBool false => lit "false"
  | PInt z => int_repr z
  | PFloat x => float_json x
  | PList [] => lit "[]"
  | PList elems =>
      lit "[" ++ newline_indent indent (S level)
      ++ join (lit "," ++ newline_indent indent (S level))
              (List.map (iterencode indent (S level)) elems)
      ++ newline_indent indent level ++ lit "]"
  | PDict [] => lit "{}"
  | PDict items =>
      lit "{" ++ newline_indent indent (S level)
      ++ join (lit "," ++ newline_indent indent (S level))
              (List.map (fun kv =>
                           encode_basestring_ascii (fst kv) ++ lit ": "
                           ++ iterencode indent (S level) (snd kv))
                        items)
      ++ newline_indent indent level ++ lit "}"
  end.

(** [json.dumps(obj, indent=n)] for an integer [n]: the indent string is
    [n] spaces and the encoding starts at level 0. *)
Definition json_dumps (n : nat) (obj : pyval) : pystr :=
  iterencode (repeat_str (lit " ") n) 0 obj.

End Values.

(** ** The world a task runs in *)

Section World.
Context {F : PyFloat}.

(** The attributes the task reads. *)
Record DagRun : Type := { conf : pyval }.
Record TaskInstance : Type := { dag_run : DagRun }.

(** What a keyword argument of the task may hold. *)
Inductive ctxobj : Type :=
  | CtxTaskInstance (ti : TaskInstance)
  | CtxValue (v : pyval).

(** The exceptions the task body can raise. *)
Inductive pyexn : Type :=
  | KeyError (key : string)
  | AttributeError (attr : string)
  | AirflowSkipException (msg : pystr).

(** The state visible to the task: its keyword arguments and the text
    written to standard output so far. *)
Record World : Type := {
  kwargs : gmap string ctxobj;
  stdout : pystr
}.

(** A statement either returns a value or raises, in a new world. *)
Definition Py (A : Type) : Type := World -> World * (pyexn + A).

Definition ret {A} (a : A) : Py A := fun w => (w, inr a).

Definition raise {A} (e : pyexn) : Py A := fun w => (w, inl e).

Definition bind {A B} (m : Py A) (k : A -> Py B) : Py B :=
  fun w =>
    match m w with
    | (w', inl e) => (w', inl e)
    | (w', inr a) => k a w'
    end.

(** [kwargs[key]] *)
Definition kwargs_getitem (key : string) : Py ctxobj :=
  fun w =>
    match kwargs w !! key with
    | Some o => (w, inr o)
    | None => (w, inl (KeyError key))
    end.

(** [o.dag_run] *)
Definition getattr_dag_run (o : ctxobj) : Py DagRun :=
  match o with
  | CtxTaskInstance ti => ret (dag_run ti)
  | CtxValue _ => raise (AttributeError "dag_run")
  end.

(** [print(s)]: the text and a line feed go to standard output. *)
Definition print (s : pystr) : Py unit :=
  fun w => ({| kwargs := kwargs w; stdout := stdout w ++ s ++ [10%N] |}, inr tt).

End World.

(** [x ← m; k] and [m ;; k] sequence statements; an exception ends the
    sequence. *)
#[export] Instance py_ret {F : PyFloat} : MRet Py := @ret F.
#[export] Instance py_bind {F : PyFloat} : MBind Py :=
  fun A B k m => bind m k.

(** ** The task *)

Section Task.
Context {F : PyFloat}.

Definition no_params_message : pystr :=
  lit "Uups, no parameters supplied as DagRun.conf, was the trigger w/o form?".

Definition skip_message : pystr := lit "No DagRun.conf parameters supplied.".

Definition triggered_with_prefix : pystr :=
  lit "This DAG was triggered with the following parameters:" ++ [10%N].

(** The text printed when a configuration is reported. *)
Definition report_text (c : pyval) : pystr :=
  triggered_with_prefix ++ json_dumps 4 c.

(** The body of [show_params], which takes keyword arguments only. *)
Definition show_params : Py unit :=
  ti ← kwargs_getitem "ti";
  dag_run ← getattr_dag_run ti;
  (if negb (truthy (conf dag_run))
   then print no_params_message ;;
        raise (AirflowSkipException skip_message)
   else ret tt) ;;
  print (report_text (conf dag_run)).

(** Modelled from the spec: the state the platform records for a task run,
    which is decided by the task runner and not by this file. A skip signal
    gives the skipped state, neither failed nor succeeded; a return gives
    success; any other exception is a failure. *)
Inductive TaskState : Type := success | skipped | failed.

(** Modelled from the spec: how the task runner, which is not part of this
    file, turns the end of a task body into the recorded state. *)
Definition task_state {A} (r : pyexn + A) : TaskState :=
  match r with
  | inr _ => success
  | inl (AirflowSkipException _) => skipped
  | inl _ => failed
  end.

(** A run configuration: absent, or a mapping from keys to values. *)
Definition run_conf : Type := option (list (pystr * pyval)).

Definition conf_value (c : run_conf) : pyval :=
  match c with
  | None => PNone
  | Some items => PDict items
  end.

(** The world of a task run started with configuration [c]: the keyword
    argument [ti] is the task instance of that run. *)
Definition triggered_with (kw : gmap string ctxobj) (c : run_conf) : Prop :=
  exists ti, kw !! "ti" = Some (CtxTaskInstance ti)
             /\ conf (dag_run ti) = conf_value c.

(** No configuration was supplied: it is absent or it has no entry. *)
Definition no_conf (c : run_conf) : Prop := c = None \/ c = Some [].

(** The task ended with the skip signal. *)
Definition raises_skip {A} (r : pyexn + A) : Prop :=
  exists msg, r = inl (AirflowSkipException msg).

(** The text a run adds to standard output, and how it ends. *)
Definition emitted (kw : gmap string ctxobj) : pystr :=
  stdout (fst (show_params {| kwargs := kw; stdout := [] |})).

Definition outcome (kw : gmap string ctxobj) : pyexn + unit :=
  snd (show_params {| kwargs := kw; stdout := [] |}).

(** A statement that leaves the keyword arguments alone and only appends
    to standard output. *)
Definition frame {A} (m : Py A) : Prop :=
  forall w, kwargs (m w).1 = kwargs w
            /\ exists out, stdout (m w).1 = stdout w ++ out.

(** The indent string of [indent=4]. *)
Definition indent4 : pystr := repeat_str (lit " ") 4.

(** The text of a key and of a value of a top-level entry, as they stand
    in [json.dumps(conf, indent=4)]. *)
Definition key_text (k : pystr) : pystr := encode_basestring_ascii k.

Definition value_text (v : pyval) : pystr := iterencode indent4 1 v.

Definition item_text (k : pystr) (v : pyval) : pystr :=
  key_text k ++ lit ": " ++ value_text v.



(** The keyword arguments of a run whose task instance carries the
    configuration [c]. *)
Definition task_kwargs (c : pyval) : gmap string ctxobj :=
  {[ "ti" := CtxTaskInstance {| dag_run := {| conf := c |} |} ]}.

End Task.

(** ** The parameter declarations *)

Module datetime.

(** [s.zfill(width)] for the decimal text of a number that is not
    negative. *)
Definition zfill (width : nat) (s : pystr) : pystr :=
  repeat_str (lit "0") (width - List.length s) ++ s.

Record date : Type := Date { year : Z; month : Z; day : Z }.

(** [str(d)] for a date: [isoformat()], that is [%04d-%02d-%02d]. *)
Definition date_str (d : date) : pystr :=
  zfill 4 (int_repr (year d)) ++ lit "-" ++ zfill 2 (int_repr (month d))
  ++ lit "-" ++ zfill 2 (int_repr (day d)).

(** A time of day without microseconds and without time zone. *)
Record time : Type := Time { hour : Z; minute : Z; second : Z }.

(** [str(t)] for such a time: [%02d:%02d:%02d]. *)
Definition time_str (t : time) : pystr :=
  zfill 2 (int_repr (hour t)) ++ lit ":" ++ zfill 2 (int_repr (minute t))
  ++ lit ":" ++ zfill 2 (int_repr (second t)).

End datetime.

(** The results of the two calls of [datetime.date.today()] made when the
    module is loaded, in the order of the source: the one in the default of
    [date_time] and the one in the default of [date]. *)
Record today_calls : Type := {
  today_of_date_time : datetime.date;
  today_of_date : datetime.date
}.

(** [list(range(a, b))] *)
Definition py_range (a b : Z) : list Z :=
  List.map (fun k => (a + Z.of_nat k)%Z) (List.seq 0 (Z.to_nat (b - a))).

Section Params.
Context {F : PyFloat}.

(** What [datetime.date.today()] answers at its two calls. *)
Variable today : today_calls.

(** An entry of the [params] dictionary: a bare default value, or a call
    [Param(default, keyword=value, ...)] with its keyword arguments in the
    order they are written. *)
Inductive ParamEntry : Type :=
  | Bare (value : pyval)
  | Param (default : pyval) (keywords : list (string * pyval)).

(** The [params] dictionary display, entry by entry as written. *)
Definition params : list (pystr * ParamEntry) :=
  [
    (lit "x",
      Bare (PInt 3));
    (lit "text",
      Bare (PStr (lit "Hello World!")));
    (lit "flag",
      Bare (PBool false));
    (lit "a_simple_list",
      Bare (PList [PStr (lit "one"); PStr (lit "two"); PStr (lit "three"); PStr (lit "actually one value is made per line")]));
    (lit "most_loved_number",
      Param (PInt 42)
        [ ("type", PStr (lit "integer"));
          ("title", PStr (lit "You favorite number"));
          ("description_html", PStr (src_lines
          [ "Everybody should have a favorite number. Not only math teachers.";
            "            If you can not think of any at the moment please think of the 42 which is very famous because";
            "            of the book";
            "            <a href='https://en.wikipedia.org/wiki/Phrases_from_The_Hitchhiker%27s_Guide_to_the_Galaxy#";
            "            The_Answer_to_the_Ultimate_Question_of_Life,_the_Universe,_and_Everything_is_42'>";
            "            The Hitchhiker's Guide to the Galaxy</a>" ])) ]);
    (lit "pick_one",
      Param (PStr (lit "value 42"))
        [ ("type", PStr (lit "string"));
          ("title", PStr (lit "Select one Value"));
          ("description", PStr (lit "You can use JSON schema enum's to generate drop down selection boxes."));
          ("enum", PList (List.map (fun i => PStr (lit "value " ++ int_repr i)) (py_range 16 64))) ]);
    (lit "bool",
      Param (PBool true)
        [ ("type", PStr (lit "boolean"));
          ("title", PStr (lit "Please confirm"));
          ("description", PStr (lit "A On/Off selection with a proper description.")) ]);
    (lit "date_time",
      Param (PStr (datetime.date_str (today_of_date_time today) ++ lit "T"
                   ++ datetime.time_str (datetime.Time 12 17 0) ++ lit "+00:00"))
        [ ("type", PStr (lit "string"));
          ("format", PStr (lit "date-time"));
          ("title", PStr (lit "Date-Time Picker"));
          ("description", PStr (lit "Please select a date and time, use the button on the left for a pup-up calendar.")) ]);
    (lit "date",
      Param (PStr (datetime.date_str (today_of_date today)))
        [ ("type", PStr (lit "string"));
          ("format", PStr (lit "date"));
          ("title", PStr (lit "Date Picker"));
          ("description", PStr (lit "Please select a date, use the button on the left for a pup-up calendar. See that here are no times!")) ]);
    (lit "time",
      Param (PStr (datetime.time_str (datetime.Time 12 13 14)))
        [ ("type", PList [PStr (lit "string"); PStr (lit "null")]);
          ("format", PStr (lit "time"));
          ("title", PStr (lit "Time Picker"));
          ("description", PStr (lit "Please select a time, use the button on the left for a pup-up tool.")) ]);
    (lit "required_field",
      Param (PStr (lit "You can not trigger if no text is given here!"))
        [ ("type", PStr (lit "string"));
          ("title", PStr (lit "Required text field"));
          ("description", PStr (lit "This field is required. You can not submit without having text in here.")) ]);
    (lit "optional_field",
      Param (PStr (lit "optional text, you can trigger also w/o text"))
        [ ("type", PList [PStr (lit "null"); PStr (lit "string")]);
          ("title", PStr (lit "Optional text field"));
          ("description_html", PStr (lit "This field is optional. As field content is JSON schema validated you must allow the <code>null</code> type.")) ]);
    (lit "checked_text",
      Param (PStr (lit "length-checked-field"))
        [ ("type", PStr (lit "string"));
          ("title", PStr (lit "Text field with length check"));
          ("description_html", PStr (src_lines
          [ "This field is required. And you need to provide something between 10 and 30";
            "            characters. See the";
            "            <a href='https://json-schema.org/understanding-json-schema/reference/string.html'>";
            "            JSON schema description (string)</a> in for more details" ]));
          ("minLength", PInt 10);
          ("maxLength", PInt 20);
          ("section", PStr (lit "JSON Schema validation options")) ]);
    (lit "checked_number",
      Param (PInt 100)
        [ ("type", PStr (lit "number"));
          ("title", PStr (lit "Number field with value check"));
          ("description_html", PStr (src_lines
          [ "This field is required. You need to provide any number between 64 and 128.";
            "            See the <a href='https://json-schema.org/understanding-json-schema/reference/numeric.html'>";
            "            JSON schema description (numbers)</a> in for more details" ]));
          ("minimum", PInt 64);
          ("maximum", PInt 128);
          ("section", PStr (lit "JSON Schema validation options")) ]);
    (lit "object",
      Param (PDict [(lit "key", PStr (lit "value"))])
        [ ("type", PList [PStr (lit "object"); PStr (lit "null")]);
          ("title", PStr (lit "JSON entry field"));
          ("section", PStr (lit "Special advanced stuff with form fields")) ]);
    (lit "hidden_secret_field",
      Param (PStr (lit "constant value"))
        [ ("const", PStr (lit "constant value")) ]);
    (lit "color_picker",
      Param (PStr (lit "#FF8800"))
        [ ("type", PStr (lit "string"));
          ("title", PStr (lit "Pick a color"));
          ("description_html", PStr (src_lines
          [ "This is a special HTML widget as custom implementation in the DAG code.";
            "            It is templated with the following parameter to render proper HTML form fields:";
            "            <ul>";
            "                <li><code>{name}</code>: Name of the HTML input field that is expected.</li>";
            "                <li><code>{value}</code>:";
            "                    (Default) value that should be displayed when showing/loading the form.</li>";
            "                <li>Note: If you have elements changing a value, call <code>updateJSONconf()</code> to update";
            "                    the form data to be posted as <code>dag_run.conf</code>.</li>";
            "            </ul>";
            "            Example: <code>&lt;input name='{name}' value='{value}' onchange='updateJSONconf()' /&gt;</code>";
            "            " ]));
          ("custom_html_form", PStr (src_lines
          [ EmptyString;
            "            <table width=`100%` cellspacing=`5`><tbody><tr><td>";
            "                <label for=`r_{name}`>Red:</label>";
            "            </td><td width=`80%`>";
            "                <input id=`r_{name}` type=`range` min=`0` max=`255` value=`0` onchange=`u_{name}()`/>";
            "            </td><td rowspan=`3` style=`padding-left: 10px;`>";
            "                <div id=`preview_{name}`";
            "                style=`line-height: 40px; margin-bottom: 7px; width: 100%; background-color: {value};`";
            "                >&nbsp;</div>";
            "                <input class=`form-control` type=`text` maxlength=`7` id=`{name}` name=`{name}`";
            "                value=`{value}` onchange=`v_{name}()` />";
            "            </td></tr><tr><td>";
            "                <label for=`g_{name}`>Green:</label>";
            "            </td><td>";
            "                <input id=`g_{name}` type=`range` min=`0` max=`255` value=`0` onchange=`u_{name}()`/>";
            "            </td></tr><tr><td>";
            "                <label for=`b_{name}`>Blue:</label>";
            "            </td><td>";
            "                <input id=`b_{name}` type=`range` min=`0` max=`255` value=`0` onchange=`u_{name}()`/>";
            "            </td></tr></tbody></table>";
            "            <script lang=`javascript`>";
            "                const hex_chars = `0123456789ABCDEF`;";
            "                function i2hex(name) {";
            "                    var i = document.getElementById(name).value;";
            "                    return hex_chars.substr(parseInt(i / 16), 1) + hex_chars.substr(parseInt(i % 16), 1)";
            "                }";
            "                function u_{name}() {";
            "                    var hex_val = `#`+i2hex(`r_{name}`)+i2hex(`g_{name}`)+i2hex(`b_{name}`);";
            "                    document.getElementById(`{name}`).value = hex_val;";
            "                    document.getElementById(`preview_{name}`).style.background = hex_val;";
            "                    updateJSONconf();";
            "                }";
            "                function hex2i(text) {";
            "                    return hex_chars.indexOf(text.substr(0,1)) * 16 + hex_chars.indexOf(text.substr(1,1));";
            "                }";
            "                function v_{name}() {";
            "                    var value = document.getElementById(`{name}`).value.toUpperCase();";
            "                    document.getElementById(`r_{name}`).value = hex2i(value.substr(1,2));";
            "                    document.getElementById(`g_{name}`).value = hex2i(value.substr(3,2));";
            "                    document.getElementById(`b_{name}`).value = hex2i(value.substr(5,2));";
            "                    document.getElementById(`preview_{name}`).style.background = value;";
            "                }";
            "                v_{name}();";
            "            </script>" ]));
          ("section", PStr (lit "Special advanced stuff with form fields")) ])
  ].

Definition entry_default (e : ParamEntry) : pyval :=
  match e with
  | Bare v => v
  | Param d _ => d
  end.

Definition entry_keywords (e : ParamEntry) : list (string * pyval) :=
  match e with
  | Bare _ => []
  | Param _ kws => kws
  end.

(** The value of a keyword argument, if the entry was given one. *)
Fixpoint assoc_string {A} (k : string) (l : list (string * A)) : option A :=
  match l with
  | [] => None
  | (k', a) :: rest => if String.eqb k k' then Some a else assoc_string k rest
  end.

Definition keyword (e : ParamEntry) (name : string) : option pyval :=
  assoc_string name (entry_keywords e).

Fixpoint pystr_eqb (s t : pystr) : bool :=
  match s, t with
  | [], [] => true
  | a :: s', b :: t' => N.eqb a b && pystr_eqb s' t'
  | _, _ => false
  end.

(** The first entry written under a name. *)
Fixpoint param_entry (name : pystr) (l : list (pystr * ParamEntry))
  : option ParamEntry :=
  match l with
  | [] => None
  | (k, e) :: rest => if pystr_eqb name k then Some e else param_entry name rest
  end.

Definition param_names : list pystr := List.map fst params.

End Params.

(** ** The constraints the declarations are checked against *)

Section Constraints.
Context {F : PyFloat}.

(** Modelled from the spec: the external schema validator is not part of
    this file. A constant-valued parameter's default must equal its
    constant. An entry without the keyword is not constrained. *)
Definition const_ok (e : ParamEntry) : Prop :=
  forall c, keyword e "const" = Some c -> entry_default e = c.


(** Modelled from the spec: an inclusive lower bound of the external
    validator, when one is given as an integer. *)
Definition lower_bound_ok (bound : option pyval) (x : Z) : bool :=
  match bound with
  | Some (PInt lo) => Z.leb lo x
  | _ => true
  end.

(** Modelled from the spec: an inclusive upper bound of the external
    validator, when one is given as an integer. *)
Definition upper_bound_ok (bound : option pyval) (x : Z) : bool :=
  match bound with
  | Some (PInt hi) => Z.leb x hi
  | _ => true
  end.

(** Modelled from the spec: the external validator's bounds. An integer
    must lie between [minimum] and [maximum], and the number of characters
    of a string between [minLength] and [maxLength], each inclusive; a
    keyword that is not given does not constrain, and a bound constrains
    only values of its own kind. *)
Definition value_within_bounds (e : ParamEntry) (v : pyval) : bool :=
  match v with
  | PInt x =>
      lower_bound_ok (keyword e "minimum") x
      && upper_bound_ok (keyword e "maximum") x
  | PStr s =>
      lower_bound_ok (keyword e "minLength") (Z.of_nat (List.length s))
      && upper_bound_ok (keyword e "maxLength") (Z.of_nat (List.length s))
  | _ => true
  end.

(** The default of an entry is within the entry's bounds. *)
Definition bounds_ok (e : ParamEntry) : bool :=
  value_within_bounds e (entry_default e).

(** An entry that declares at least one bound. *)
Definition is_bounded (e : ParamEntry) : bool :=
  match keyword e "minimum", keyword e "maximum",
        keyword e "minLength", keyword e "maxLength" with
  | None, None, None, None => false
  | _, _, _, _ => true
  end.

End Constraints.

(** A configuration type without floating-point numbers, for concrete
    runs. *)
Definition no_floats : PyFloat :=
  {| pyfloat := Empty_set;
     float_json := fun x => match x with end;
     float_truth := fun x => match x with end |}.

(** A configuration as the trigger form might send it, and two worlds of
    runs that carry a given configuration: they differ in their other
    keyword arguments and in what is already on standard output. *)
Definition sample_conf : list (pystr * @pyval no_floats) :=
  [ (lit "x", PInt 3);
    (lit "text", PStr (lit "Hello World!"));
    (lit "a_simple_list", PList [PStr (lit "one"); PStr (lit "two")]) ].

Definition sample_world (c : @pyval no_floats) : @World no_floats :=
  {| kwargs := task_kwargs c; stdout := lit "started" ++ [10%N] |}.

Definition other_world (c : @pyval no_floats) : @World no_floats :=
  {| kwargs := <[ "run_id"%string := CtxValue (PStr (lit "manual")) ]>
                 (task_kwargs c);
     stdout := [] |}.

(** ** The shape of the printed text *)

Section TextShape.
Context {F : PyFloat}.

(** The characters from space to tilde. *)
Definition printable (c : N) : bool := N.leb 32 c && N.leb c 126.

(** A text of printable characters, all on one line. *)
Definition ascii_line (s : pystr) : Prop := forallb printable s = true.

(** A text of printable characters and line feeds. *)
Definition ascii_text (s : pystr) : Prop :=
  forallb (fun c => printable c || N.eqb c 10) s = true.

(** The text with [indent] put after each of its line feeds. *)
Definition shift_lines (indent : pystr) (s : pystr) : pystr :=
  List.flat_map (fun c => if N.eqb c 10 then 10%N :: indent else [c]) s.

(** The number of line feeds of a text. *)
Definition line_feeds (s : pystr) : nat :=
  List.length (List.filter (fun c => N.eqb c 10) s).

(** Values that are written without a line break of their own: everything
    but a list or a dictionary that has elements. *)
Definition one_line_value (v : pyval) : bool :=
  match v with
  | PList (_ :: _) | PDict (_ :: _) => false
  | _ => true
  end.

End TextShape.

(** A configuration of values written on one line each; its second value
    holds a line feed. *)
Definition flat_conf : list (pystr * @pyval no_floats) :=
  [ (lit "x", PInt 3);
    (lit "note", PStr (lit "two" ++ [10%N] ++ lit "lines"));
    (lit "flag", PBool false);
    (lit "nothing", PList []) ].

(** ** Dates as text *)

(** The character of the last decimal digit of a number. *)
Definition digit_char (z : Z) : N := Z.to_N (48 + z mod 10).

(** A number below 100 in two digits, and one below 10000 in four. *)
Definition digits2 (n : Z) : pystr := [digit_char (n / 10); digit_char n].

Definition digits4 (n : Z) : pystr :=
  [digit_char (n / 1000); digit_char (n / 100); digit_char (n / 10);
   digit_char n].

(** The range of the fields of a [datetime.date]. *)
Definition valid_date (d : datetime.date) : Prop :=
  (1 <= datetime.year d <= 9999 /\ 1 <= datetime.month d <= 12
   /\ 1 <= datetime.day d <= 31)%Z.

(** ** String methods, paths and the arguments of the DAG *)

Module pybuiltins.

(** [hay.find(needle)] searched from position [i] on: the lowest index at
    which the needle starts, or -1. *)
Fixpoint find_from (needle hay : pystr) (i : Z) : Z :=
  if starts_with needle hay then i
  else match hay with
       | [] => (-1)%Z
       | _ :: hay' => find_from needle hay' (i + 1)
       end.

Definition find (needle hay : pystr) : Z := find_from needle hay 0.

(** [hay.rfind(needle)]: the highest such index, or -1. *)
Fixpoint rfind_from (needle hay : pystr) (i : Z) : Z :=
  match hay with
  | [] => if starts_with needle [] then i else (-1)%Z
  | _ :: hay' =>
      let r := rfind_from needle hay' (i + 1) in
      if Z.leb 0 r then r
      else if starts_with needle hay then i else (-1)%Z
  end.

Definition rfind (needle hay : pystr) : Z := rfind_from needle hay 0.

(** A slice bound brought into the range of the string: a negative bound
    counts from the end, and bounds beyond either end are clipped. *)
Definition slice_bound (len i : Z) : Z :=
  if Z.ltb i 0 then Z.max (i + len) 0 else Z.min i len.

(** [s[lo:hi]] *)
Definition slice (s : pystr) (lo hi : Z) : pystr :=
  let len := Z.of_nat (List.length s) in
  let lo' := slice_bound len lo in
  let hi' := slice_bound len hi in
  List.firstn (Z.to_nat (hi' - lo')) (List.skipn (Z.to_nat lo') s).

End pybuiltins.


Module pathlib.

(** [s.split(sep)] for a separator of one character. *)
Fixpoint split_on (sep : N) (s : pystr) : list pystr :=
  match s with
  | [] => [[]]
  | c :: s' =>
      if N.eqb c sep then [] :: split_on sep s'
      else match split_on sep s' with
           | [] => [[c]]
           | p :: ps => (c :: p) :: ps
           end
  end.

(** The components of a POSIX path: what stands between the slashes, the
    empty components and the single dots left out. *)
Definition parts (path : pystr) : list pystr :=
  List.filter (fun x => negb (pystr_eqb x []) && negb (pystr_eqb x (lit ".")))
              (split_on 47 path).

(** [PurePosixPath(path).name]: the last component, or the empty string. *)
Definition name (path : pystr) : pystr := List.last (parts path) [].

(** The stem of a file name: the name without its last suffix. A dot that
    starts or ends the name begins no suffix. *)
Definition name_stem (nm : pystr) : pystr :=
  let i := pybuiltins.rfind (lit ".") nm in
  if Z.ltb 0 i && Z.ltb i (Z.of_nat (List.length nm) - 1)
  then pybuiltins.slice nm 0 i
  else nm.

(** [PurePosixPath(path).stem] *)
Definition stem (path : pystr) : pystr := name_stem (name path).

End pathlib.

(** ** The DAG *)

Section Dag.
Context {F : PyFloat}.

(** The path of the module file, [__file__], and the days read when it is
    loaded. *)
Variable file : pystr.
Variable today : today_calls.

(** The module docstring, [__doc__]. *)
Definition module_doc : pystr :=
  join [10%N]
    (List.map lit
       [ "DAG demonstrating various options for a trigger form generated by DAG params.";
         EmptyString;
         "The DAG attribute `params` is used to define a default dictionary of parameters which are usually passed";
         "to the DAG and which are used to render a trigger form.";
         EmptyString ]).

(** [doc[0 : doc.find(".")]] *)
Definition first_sentence (doc : pystr) : pystr :=
  pybuiltins.slice doc 0 (pybuiltins.find (lit ".") doc).

(** The arguments of the call [DAG(...)]. *)
Record DAG : Type := {
  dag_id : pystr;
  description : pystr;
  doc_md : pystr;
  schedule : option pystr;
  start_date : datetime.date * datetime.time;
  catchup : bool;
  tags : list pystr;
  dag_params : list (pystr * ParamEntry)
}.

Definition dag : DAG :=
  {| dag_id := pathlib.stem file;
     description := first_sentence module_doc;
     doc_md := module_doc;
     schedule := None;
     start_date := (datetime.Date 2022 3 4, datetime.Time 0 0 0);
     catchup := false;
     tags := [lit "example_ui"];
     dag_params := params today |}.

End Dag.

(** ** The script of the colour picker *)

Module js.

(** A JavaScript string: its UTF-16 code units. *)
Definition jsstr : Type := list N.

(** [s.substr(start, length)]: a negative start counts from the end, and
    start and length are clipped to the string. *)
Definition substr (s : jsstr) (start len : Z) : jsstr :=
  let size := Z.of_nat (List.length s) in
  let st := if Z.ltb start 0 then Z.max (size + start) 0 else Z.min start size in
  let ln := Z.min (Z.max len 0) size in
  let en := Z.min (st + ln) size in
  List.firstn (Z.to_nat (en - st)) (List.skipn (Z.to_nat st) s).

(** [hay.indexOf(needle)] searched from position [i] on. *)
Fixpoint indexOf_from (hay needle : jsstr) (i : Z) : Z :=
  if starts_with needle hay then i
  else match hay with
       | [] => (-1)%Z
       | _ :: hay' => indexOf_from hay' needle (i + 1)
       end.

(** [hay.indexOf(needle)]: the first index at which the needle starts, 0
    for the empty needle, -1 when there is none. *)
Definition indexOf (hay needle : jsstr) : Z := indexOf_from hay needle 0.

(** [s.toUpperCase()] on the letters of ASCII; the other code units are
    left as they are. *)
Definition toUpperCase (s : jsstr) : jsstr :=
  List.map (fun c => if N.leb 97 c && N.leb c 122 then (c - 32)%N else c) s.

End js.

Module ColorPicker.
Import js.

(** [const hex_chars = "0123456789ABCDEF";] *)
Definition hex_chars : jsstr := lit "0123456789ABCDEF".

(** [i2hex], on the number the slider holds. The division and the
    remainder are JavaScript's on numbers, and [parseInt] drops the
    fractional part of the quotient. *)
Definition i2hex (i : Z) : jsstr :=
  substr hex_chars (Z.quot i 16) 1 ++ substr hex_chars (Z.rem i 16) 1.

(** [hex2i] *)
Definition hex2i (text : jsstr) : Z :=
  (indexOf hex_chars (substr text 0 1) * 16
   + indexOf hex_chars (substr text 1 1))%Z.

(** The elements the script reads and writes: the three sliders
    [r_{name}], [g_{name}] and [b_{name}], the text field [{name}] and the
    background of [preview_{name}]; and the number of calls of
    [updateJSONconf()] made so far. A slider holds the number assigned to
    it. *)
Record Picker : Type := {
  red : Z;
  green : Z;
  blue : Z;
  field : jsstr;
  preview : jsstr;
  conf_updates : nat
}.

(** [u_{name}()], run when a slider moves. *)
Definition u_name (p : Picker) : Picker :=
  let hex_val := lit "#" ++ i2hex (red p) ++ i2hex (green p) ++ i2hex (blue p) in
  {| red := red p; green := green p; blue := blue p;
     field := hex_val;
     preview := hex_val;
     conf_updates := S (conf_updates p) |}.

(** [v_{name}()], run when the text field changes and once when the form
    is loaded. *)
Definition v_name (p : Picker) : Picker :=
  let value := toUpperCase (field p) in
  {| red := hex2i (substr value 1 2);
     green := hex2i (substr value 3 2);
     blue := hex2i (substr value 5 2);
     field := field p;
     preview := value;
     conf_updates := conf_updates p |}.

(** The digits a colour may be typed with. *)
Definition is_hex (c : N) : bool :=
  (N.leb 48 c && N.leb c 57) || (N.leb 65 c && N.leb c 70)
  || (N.leb 97 c && N.leb c 102).

(** A colour as the text field shows it: a hash sign and six digits. *)
Definition is_colour (s : jsstr) : Prop :=
  exists digits, s = 35%N :: digits /\ List.length digits = 6
                 /\ forallb is_hex digits = true.

Definition slider_range (i : Z) : Prop := (0 <= i <= 255)%Z.

End ColorPicker.

(** The digits a colour may be typed with, listed. *)
Definition hex_digits_any : list N := lit "0123456789ABCDEFabcdef".

(** The picker as the form is loaded with a value: the sliders at 0, the
    text field and the preview showing the value, and [v_{name}()] run
    once. *)
Definition loaded (value : js.jsstr) : ColorPicker.Picker :=
  ColorPicker.v_name
    {| ColorPicker.red := 0; ColorPicker.green := 0; ColorPicker.blue := 0;
       ColorPicker.field := value; ColorPicker.preview := value;
       ColorPicker.conf_updates := 0 |}.

(** ** Reading a string back from its JSON text *)

(** A Unicode scalar value: a code point that is no surrogate. *)
Definition scalar_value (c : N) : bool :=
  (N.ltb c 55296 || N.leb 57344 c) && N.leb c 1114111.

(** The value of a hexadecimal digit in lower case. *)
Definition unhex_digit (h : N) : N :=
  if N.leb 97 h then (h - 87)%N else (h - 48)%N.

Definition unhex4 (h1 h2 h3 h4 : N) : N :=
  (((unhex_digit h1 * 16 + unhex_digit h2) * 16 + unhex_digit h3) * 16
   + unhex_digit h4)%N.

(** Reads one character back from the front of the text between the quotes
    of a JSON string: the character and the text left. *)
Definition read_char (s : pystr) : option (N * pystr) :=
  match s with
  | [] => None
  | c :: rest =>
      if negb (N.eqb c backslash) then Some (c, rest)
      else
        match rest with
        | [] => None
        | e :: rest1 =>
            if N.eqb e 98 then Some (8%N, rest1)
            else if N.eqb e 102 then Some (12%N, rest1)
            else if N.eqb e 110 then Some (10%N, rest1)
            else if N.eqb e 114 then Some (13%N, rest1)
            else if N.eqb e 116 then Some (9%N, rest1)
            else if negb (N.eqb e 117) then Some (e, rest1)
            else
              match rest1 with
              | h1 :: h2 :: h3 :: h4 :: rest2 =>
                  let n := unhex4 h1 h2 h3 h4 in
                  if negb (N.leb 55296 n && N.leb n 56319) then Some (n, rest2)
                  else
                    match rest2 with
                    | b :: u :: l1 :: l2 :: l3 :: l4 :: rest3 =>
                        if N.eqb b backslash && N.eqb u 117
                        then Some ((65536 + (n - 55296) * 1024
                                    + (unhex4 l1 l2 l3 l4 - 56320))%N, rest3)
                        else None
                    | _ => None
                    end
              | _ => None
              end
        end
  end.

(** ** The declared types *)

Section Types.
Context {F : PyFloat}.

(** Modelled from the spec: the type names of the external validator and
    the values they admit. Booleans are no numbers, and a float is taken
    as a number only, never as an integer. *)
Definition has_type (name : pystr) (v : pyval) : bool :=
  if pystr_eqb name (lit "string") then
    match v with PStr _ => true | _ => false end
  else if pystr_eqb name (lit "integer") then
    match v with PInt _ => true | _ => false end
  else if pystr_eqb name (lit "number") then
    match v with PInt _ | PFloat _ => true | _ => false end
  else if pystr_eqb name (lit "boolean") then
    match v with PBool _ => true | _ => false end
  else if pystr_eqb name (lit "object") then
    match v with PDict _ => true | _ => false end
  else if pystr_eqb name (lit "array") then
    match v with PList _ => true | _ => false end
  else if pystr_eqb name (lit "null") then
    match v with PNone => true | _ => false end
  else false.

(** Modelled from the spec: the default of an entry has the declared type,
    or one of the declared types when a list of them is given; an entry
    that declares no type is not constrained. *)
Definition type_ok (e : ParamEntry) : bool :=
  match keyword e "type" with
  | None => true
  | Some (PStr name) => has_type name (entry_default e)
  | Some (PList names) =>
      existsb (fun n => match n with
                        | PStr name => has_type name (entry_default e)
                        | _ => false
                        end) names
  | Some _ => false
  end.

(** The entries that declare a type. *)
Definition is_typed (e : ParamEntry) : bool :=
  match keyword e "type" with
  | None => false
  | Some _ => true
  end.

End Types.

(** ** Sample inputs *)

Definition sample_day : datetime.date := datetime.Date 2024 3 7.

(** A load across midnight: the two calls of [today()] answer two days. *)
Definition sample_days : today_calls :=
  {| today_of_date_time := datetime.Date 2024 3 7;
     today_of_date := datetime.Date 2024 3 8 |}.

Definition sample_directory : pystr := lit "/opt/airflow/dags".

Definition module_file_name : pystr := lit "example_params_ui_tutorial.py".

(** A picker whose sliders were moved to an orange. *)
Definition moved_picker : ColorPicker.Picker :=
  {| ColorPicker.red := 255; ColorPicker.green := 136; ColorPicker.blue := 0;
     ColorPicker.field := lit "#000000"; ColorPicker.preview := lit "#000000";
     ColorPicker.conf_updates := 0 |}.

(** A picker in whose text field a colour was typed in lower case. *)
Definition typed_picker : ColorPicker.Picker :=
  {| ColorPicker.red := 0; ColorPicker.green := 0; ColorPicker.blue := 0;
     ColorPicker.field := lit "#ff8800"; ColorPicker.preview := lit "#000000";
     ColorPicker.conf_updates := 3 |}.

(** ** Reading the printed tokens back *)





Section Tokens.
Context {F : PyFloat}.



End Tokens.

(** ** Configurations as mappings *)

Section Mappings.
Context {F : PyFloat}.

(** [d[k]] for the dictionary of the given items, if it has the key. *)
Fixpoint dict_get (k : pystr) (items : list (pystr * pyval)) : option pyval :=
  match items with
  | [] => None
  | (k', v) :: rest => if pystr_eqb k k' then Some v else dict_get k rest
  end.

(** Two dictionaries with the same keys and the same value under each key,
    in whatever order the items are: equal as Python's [==] takes them.
    Values count as the same when they are identical. *)
Definition same_mapping (a b : list (pystr * pyval)) : Prop :=
  forall k, dict_get k a = dict_get k b.

(** Two configurations equal as mappings: two dictionaries that are the
    same mapping, or otherwise the same value. *)
Definition conf_same_mapping (c1 c2 : pyval) : Prop :=
  match c1, c2 with
  | PDict a, PDict b => same_mapping a b
  | _, _ => c1 = c2
  end.

End Mappings.


(** One mapping written in two orders. *)
Definition conf_ab : list (pystr * @pyval no_floats) :=
  [ (lit "a", PInt 1); (lit "b", PInt 2) ].

Definition conf_ba : list (pystr * @pyval no_floats) :=
  [ (lit "b", PInt 2); (lit "a", PInt 1) ].

(** * Properties of the task *)

Section TaskFacts.
Context {F : PyFloat}.

(** What one run does once the task instance is found: one of two prints,
    and the skip signal after the first of them. *)
Lemma show_params_run (w : World) (ti : TaskInstance) :
  kwargs w !! "ti" = Some (CtxTaskInstance ti) ->
  show_params w =
    if truthy (conf (dag_run ti))
    then print (report_text (conf (dag_run ti))) w
    else ((print no_params_message w).1,
          inl (AirflowSkipException skip_message)).
Proof.
  intros Hti.
  unfold show_params, mbind, py_bind, bind, kwargs_getitem.
  rewrite Hti. cbn.
  destruct (truthy (conf (dag_run ti))); reflexivity.
Qed.

Lemma truthy_conf_value (c : run_conf) :
  truthy (conf_value c) = false <-> no_conf c.
Proof.
  unfold no_conf.
  destruct c as [[|kv items]|]; cbn; split; intros H;
    try reflexivity; try discriminate; auto.
  - destruct H as [H|H]; discriminate.
Qed.

Lemma no_conf_dec (c : run_conf) : no_conf c \/ ~ no_conf c.
Proof.
  destruct c as [[|kv items]|].
  - left; right; reflexivity.
  - right; intros [H|H]; discriminate.
  - left; left; reflexivity.
Qed.

Lemma show_params_skip_run (w : World) (c : run_conf) :
  triggered_with (kwargs w) c -> no_conf c ->
  show_params w = ((print no_params_message w).1,
                   inl (AirflowSkipException skip_message)).
Proof.
  intros (ti & Hti & Hc) Hno.
  rewrite (show_params_run w ti Hti), Hc.
  apply truthy_conf_value in Hno. rewrite Hno. reflexivity.
Qed.

Lemma show_params_report_run (w : World) (c : run_conf) :
  triggered_with (kwargs w) c -> ~ no_conf c ->
  show_params w = print (report_text (conf_value c)) w.
Proof.
  intros (ti & Hti & Hc) Hno.
  rewrite (show_params_run w ti Hti), Hc.
  destruct (truthy (conf_value c)) eqn:Ht; [reflexivity|].
  apply truthy_conf_value in Ht. contradiction.
Qed.

Lemma frame_ret {A} (a : A) : frame (ret a).
Proof. intros w; split; [reflexivity|]. exists []. cbn. now rewrite app_nil_r. Qed.

Lemma frame_raise {A} (e : pyexn) : frame (@raise F A e).
Proof. intros w; split; [reflexivity|]. exists []. cbn. now rewrite app_nil_r. Qed.

Lemma frame_print (s : pystr) : frame (print s).
Proof. intros w; split; [reflexivity|]. now exists (s ++ [10%N]). Qed.

Lemma frame_kwargs_getitem (key : string) : frame (kwargs_getitem key).
Proof.
  intros w; unfold kwargs_getitem.
  destruct (kwargs w !! key); (split; [reflexivity|]);
    exists []; cbn; now rewrite app_nil_r.
Qed.

Lemma frame_getattr_dag_run (o : ctxobj) : frame (getattr_dag_run o).
Proof. destruct o; [apply frame_ret | apply frame_raise]. Qed.

Lemma frame_bind {A B} (m : Py A) (k : A -> Py B) :
  frame m -> (forall a, frame (k a)) -> frame (bind m k).
Proof.
  intros Hm Hk w. unfold bind.
  destruct (Hm w) as [Hkw [out Hout]].
  destruct (m w) as [w' [e|a]]; cbn in *.
  - split; [assumption | now exists out].
  - destruct (Hk a w') as [Hkw' [out' Hout']].
    split; [congruence|].
    exists (out ++ out'). rewrite Hout', Hout. now rewrite app_assoc.
Qed.

Lemma frame_show_params : frame show_params.
Proof.
  unfold show_params, mbind, py_bind.
  apply frame_bind; [apply frame_kwargs_getitem | intros ti].
  apply frame_bind; [apply frame_getattr_dag_run | intros dr].
  apply frame_bind; [| intros _; apply frame_print].
  destruct (negb (truthy (conf dr))); [| apply frame_ret].
  apply frame_bind; [apply frame_print | intros _; apply frame_raise].
Qed.

(** A run depends on the text already on standard output only by
    appending to it. *)
Lemma show_params_from_empty (w : World) :
  stdout (show_params w).1 = stdout w ++ emitted (kwargs w)
  /\ (show_params w).2 = outcome (kwargs w).
Proof.
  unfold emitted, outcome.
  unfold show_params, mbind, py_bind, bind, kwargs_getitem. cbn.
  destruct (kwargs w !! "ti") as [[ti|v]|]; cbn;
    try (split; [now rewrite app_nil_r | reflexivity]).
  destruct (truthy (conf (dag_run ti))); cbn; split; reflexivity.
Qed.

Lemma emitted_run (kw : gmap string ctxobj) (ti : TaskInstance) :
  kw !! "ti" = Some (CtxTaskInstance ti) ->
  emitted kw = (if truthy (conf (dag_run ti))
                then report_text (conf (dag_run ti))
                else no_params_message) ++ [10%N]
  /\ outcome kw = if truthy (conf (dag_run ti))
                  then inr tt
                  else inl (AirflowSkipException skip_message).
Proof.
  intros Hti. unfold emitted, outcome.
  rewrite (show_params_run {| kwargs := kw; stdout := [] |} ti Hti).
  destruct (truthy (conf (dag_run ti))); cbn; split; reflexivity.
Qed.

(** C1. For every run configuration, the task raises the skip signal if
    and only if the configuration is absent or empty. In that case the
    signal is [AirflowSkipException] with the message of the source and the
    run is recorded as skipped, not failed; in every other case the task
    returns without raising and the run is recorded as a success. *)
Theorem show_params_skips_iff_no_conf (w : World) (c : run_conf) :
  triggered_with (kwargs w) c ->
  (raises_skip (show_params w).2 <-> no_conf c)
  /\ (no_conf c ->
      (show_params w).2 = inl (AirflowSkipException skip_message)
      /\ task_state (show_params w).2 = skipped)
  /\ (~ no_conf c ->
      (show_params w).2 = inr tt
      /\ task_state (show_params w).2 = success).
Proof.
  intros Htrig.
  assert (Hskip : no_conf c ->
            (show_params w).2 = inl (AirflowSkipException skip_message)).
  { intros Hno. now rewrite (show_params_skip_run w c Htrig Hno). }
  assert (Hrep : ~ no_conf c -> (show_params w).2 = inr tt).
  { intros Hno. now rewrite (show_params_report_run w c Htrig Hno). }
  split; [split|split].
  - intros [msg Hmsg]. destruct (no_conf_dec c) as [Hno|Hno]; [assumption|].
    rewrite (Hrep Hno) in Hmsg. discriminate.
  - intros Hno. exists skip_message. auto.
  - intros Hno. rewrite (Hskip Hno). split; reflexivity.
  - intros Hno. rewrite (Hrep Hno). split; reflexivity.
Qed.

(** C3. On the skip path (configuration absent or empty) the task first
    prints the diagnostic about missing DagRun.conf parameters and then
    raises the skip signal: the run is the print followed by the raise, the
    world in which the signal is raised is the one left by the print, the
    text added to standard output is the diagnostic and a line feed, and
    the run is recorded as skipped. *)
Theorem show_params_skip_prints_diagnostic (w : World) (c : run_conf) :
  triggered_with (kwargs w) c -> no_conf c ->
  show_params w
    = (print no_params_message ;; raise (AirflowSkipException skip_message)) w
  /\ (show_params w).1 = (print no_params_message w).1
  /\ stdout (show_params w).1 = stdout w ++ no_params_message ++ [10%N]
  /\ emitted (kwargs w) = no_params_message ++ [10%N]
  /\ (show_params w).2 = inl (AirflowSkipException skip_message)
  /\ task_state (show_params w).2 = skipped.
Proof.
  intros Htrig Hno.
  pose proof (show_params_skip_run w c Htrig Hno) as Hrun.
  rewrite Hrun. repeat split.
  destruct Htrig as (ti & Hti & Hc).
  destruct (emitted_run (kwargs w) ti Hti) as [Hem _].
  rewrite Hem, Hc.
  apply truthy_conf_value in Hno. now rewrite Hno.
Qed.

(** C7. The task has no effect beyond its output: in every world, and
    however the run ends (return, skip signal or error), the keyword
    arguments, and with them the task instance, the run and its
    configuration, are what they were, and the world the run leaves is the
    one it started in with the emitted text appended to standard output. *)
Theorem show_params_no_side_effects (w : World) :
  kwargs (show_params w).1 = kwargs w
  /\ stdout (show_params w).1 = stdout w ++ emitted (kwargs w)
  /\ (show_params w).1
     = {| kwargs := kwargs w; stdout := stdout w ++ emitted (kwargs w) |}.
Proof.
  destruct (frame_show_params w) as [Hkw _].
  destruct (show_params_from_empty w) as [Hout _].
  split; [exact Hkw | split; [exact Hout|]].
  destruct (show_params w).1 as [kw out]. cbn in Hkw, Hout.
  now rewrite Hkw, Hout.
Qed.

End TaskFacts.

(** ** Occurrences in the printed text *)

Section Occurrences.
Context {F : PyFloat}.




Lemma occurs_in_left (a b : pystr) : occurs_in a (a ++ b).
Proof. now exists [], b. Qed.




(** The executable test is sound. *)
Lemma starts_with_spec (p s : pystr) :
  starts_with p s = true -> exists rest, s = p ++ rest.
Proof.
  revert s. induction p as [|a p IH]; intros s H.
  - now exists s.
  - destruct s as [|b s]; [discriminate|]. cbn in H.
    apply andb_prop in H as [Hab Hps].
    apply N.eqb_eq in Hab as ->.
    destruct (IH s Hps) as [rest ->]. now exists rest.
Qed.

Lemma occurs_inb_sound (needle hay : pystr) :
  occurs_inb needle hay = true -> occurs_in needle hay.
Proof.
  induction hay as [|c hay IH]; cbn; intros H.
  - apply orb_prop in H as [H|H]; [|discriminate].
    destruct (starts_with_spec _ _ H) as [rest ->]. apply occurs_in_left.
  - apply orb_prop in H as [H|H].
    + destruct (starts_with_spec _ _ H) as [rest ->]. apply occurs_in_left.
    + destruct (IH H) as (pre & post & ->). now exists (c :: pre), post.
Qed.

Lemma starts_with_app (p rest : pystr) : starts_with p (p ++ rest) = true.
Proof.
  induction p as [|a p IH]; [reflexivity|]. cbn.
  now rewrite N.eqb_refl, IH.
Qed.

Lemma occurs_inb_complete (needle hay : pystr) :
  occurs_in needle hay -> occurs_inb needle hay = true.
Proof.
  intros (pre & post & ->).
  induction pre as [|c pre IH].
  - cbn [app]. destruct (needle ++ post) eqn:E; cbn;
      rewrite <- ?E, starts_with_app; reflexivity.
  - cbn. rewrite IH. apply orb_true_r.
Qed.



(** The report of a dictionary that is not empty: its entries, one per
    line, between the braces. *)
Lemma json_dumps_dict (kv : pystr * pyval) (items : list (pystr * pyval)) :
  json_dumps 4 (PDict (kv :: items))
  = lit "{" ++ newline_indent indent4 1
    ++ join (lit "," ++ newline_indent indent4 1)
            (List.map (fun kv => item_text kv.1 kv.2) (kv :: items))
    ++ newline_indent indent4 0 ++ lit "}".
Proof. reflexivity. Qed.


End Occurrences.

(** * Properties of the parameter declarations *)

Section ParamFacts.
Context {F : PyFloat}.
Variable today : today_calls.

Lemma const_ok_absent (e : ParamEntry) :
  keyword e "const" = None -> const_ok e.
Proof. intros H c Hc. rewrite H in Hc. discriminate. Qed.

Lemma py_range_In (a b i : Z) :
  In i (py_range a b) <-> (a <= i < b)%Z.
Proof.
  unfold py_range. rewrite in_map_iff. split.
  - intros (k & <- & Hk). apply in_seq in Hk. lia.
  - intros Hi. exists (Z.to_nat (i - a)). split; [lia|].
    apply in_seq. lia.
Qed.

(** C4. The constant-valued parameter [hidden_secret_field] declares the
    default ["constant value"] and the constant ["constant value"]: its
    default equals its constant. It is the only entry that declares a
    constant, so every entry meets the constant-parameter constraint. *)
Theorem hidden_secret_field_default_is_const :
  (exists e,
     param_entry (lit "hidden_secret_field") (params today) = Some e
     /\ entry_default e = PStr (lit "constant value")
     /\ keyword e "const" = Some (PStr (lit "constant value"))
     /\ keyword e "const" = Some (entry_default e)
     /\ const_ok e)
  /\ Forall (fun ne => const_ok ne.2) (params today).
Proof.
  assert (Hc : const_ok (Param (PStr (lit "constant value"))
                               [("const"%string, PStr (lit "constant value"))])).
  { intros c Hc. cbn in Hc. now injection Hc as <-. }
  split.
  - eexists. split; [reflexivity|]. repeat split. exact Hc.
  - unfold params.
    repeat (apply Forall_cons_2;
            [first [apply const_ok_absent; reflexivity | exact Hc]|]).
    apply Forall_nil_2.
Qed.

(** C5. Every bounded parameter's default satisfies its declared bounds.
    The bounded parameters are [checked_text] and [checked_number]. The
    default of [checked_number] is 100, between its minimum 64 and its
    maximum 128; the default of [checked_text] is ["length-checked-field"],
    whose length lies between its minLength 10 and its maxLength 20. *)
Theorem bounded_defaults_within_bounds :
  (exists e,
     param_entry (lit "checked_number") (params today) = Some e
     /\ entry_default e = PInt 100
     /\ keyword e "minimum" = Some (PInt 64)
     /\ keyword e "maximum" = Some (PInt 128)
     /\ (64 <= 100 <= 128)%Z
     /\ bounds_ok e = true)
  /\ (exists e s,
        param_entry (lit "checked_text") (params today) = Some e
        /\ entry_default e = PStr s
        /\ s = lit "length-checked-field"
        /\ keyword e "minLength" = Some (PInt 10)
        /\ keyword e "maxLength" = Some (PInt 20)
        /\ (10 <= Z.of_nat (List.length s) <= 20)%Z
        /\ bounds_ok e = true)
  /\ List.map fst (List.filter (fun ne => is_bounded ne.2) (params today))
     = [lit "checked_text"; lit "checked_number"]
  /\ Forall (fun ne => bounds_ok ne.2 = true) (params today).
Proof.
  split; [|split; [|split]].
  - eexists. split; [reflexivity|]. repeat split; lia.
  - eexists. eexists. split; [reflexivity|]. repeat split; cbn; lia.
  - reflexivity.
  - unfold params. repeat (apply Forall_cons_2; [reflexivity|]).
    apply Forall_nil_2.
Qed.


(** C8. The entries of the parameter declaration set have pairwise
    distinct names: the seventeen names, in the order they are written,
    are [x], [text], [flag], [a_simple_list], [most_loved_number],
    [pick_one], [bool], [date_time], [date], [time], [required_field],
    [optional_field], [checked_text], [checked_number], [object],
    [hidden_secret_field] and [color_picker], and no name occurs twice. *)
Theorem param_names_unique :
  param_names today
  = List.map lit
      [ "x"; "text"; "flag"; "a_simple_list"; "most_loved_number";
        "pick_one"; "bool"; "date_time"; "date"; "time"; "required_field";
        "optional_field"; "checked_text"; "checked_number"; "object";
        "hidden_secret_field"; "color_picker" ]%string
  /\ List.length (param_names today) = 17
  /\ NoDup (param_names today).
Proof.
  split; [reflexivity | split; [reflexivity|]].
  change (param_names today) with
    (List.map lit
      [ "x"; "text"; "flag"; "a_simple_list"; "most_loved_number";
        "pick_one"; "bool"; "date_time"; "date"; "time"; "required_field";
        "optional_field"; "checked_text"; "checked_number"; "object";
        "hidden_secret_field"; "color_picker" ]%string).
  apply (@bool_decide_unpack _ (@NoDup_dec (list N) _ _)).
  vm_compute. reflexivity.
Qed.

(** C10. The default of [checked_text] sits on its upper bound: the string
    ["length-checked-field"] has exactly 20 characters and the declared
    maxLength is 20, while the description shown to the user speaks of
    "between 10 and 30" characters. The default is within the bounds, and
    the default with any one character appended is not. *)
Theorem checked_text_default_at_max_length :
  exists e s d,
    param_entry (lit "checked_text") (params today) = Some e
    /\ entry_default e = PStr s
    /\ s = lit "length-checked-field"
    /\ List.length s = 20
    /\ keyword e "maxLength" = Some (PInt 20)
    /\ keyword e "description_html" = Some (PStr d)
    /\ occurs_in (lit "between 10 and 30") d
    /\ value_within_bounds e (PStr s) = true
    /\ forall c, value_within_bounds e (PStr (s ++ [c])) = false.
Proof.
  eexists. eexists. eexists. split; [reflexivity|].
  split; [reflexivity|]. split; [reflexivity|].
  split; [reflexivity|]. split; [reflexivity|]. split; [reflexivity|].
  split; [apply occurs_inb_sound; vm_compute; reflexivity|].
  split; [reflexivity|].
  intros c. reflexivity.
Qed.

End ParamFacts.

(** * Concrete runs *)

Section Runs.
#[local] Existing Instance no_floats.

(** A run with [sample_conf] returns and is recorded as a success. *)
Lemma show_params_skips_iff_no_conf_witness :
  triggered_with (kwargs (sample_world (PDict sample_conf))) (Some sample_conf)
  /\ ((show_params (sample_world (PDict sample_conf))).2 = inr tt
      /\ task_state (show_params (sample_world (PDict sample_conf))).2 = success).
Proof.
  assert (H : triggered_with (kwargs (sample_world (PDict sample_conf)))
                             (Some sample_conf))
    by (eexists; split; reflexivity).
  split; [exact H|].
  apply (show_params_skips_iff_no_conf _ (Some sample_conf) H).
  intros [E|E]; discriminate.
Defined.

(** A run without configuration prints the diagnostic and is skipped. *)
Lemma show_params_skip_prints_diagnostic_witness :
  triggered_with (kwargs (sample_world PNone)) None
  /\ no_conf None
  /\ stdout (show_params (sample_world PNone)).1
     = lit "started" ++ [10%N] ++ no_params_message ++ [10%N]
  /\ task_state (show_params (sample_world PNone)).2 = skipped.
Proof.
  assert (H : triggered_with (kwargs (sample_world PNone)) None)
    by (eexists; split; reflexivity).
  assert (Hno : @no_conf no_floats None) by (left; reflexivity).
  split; [exact H | split; [exact Hno|]].
  destruct (show_params_skip_prints_diagnostic _ None H Hno)
    as (_ & _ & Hout & _ & _ & Hstate).
  split; [|exact Hstate].
  rewrite Hout. cbn [sample_world stdout]. now rewrite <- app_assoc.
Defined.

(** The report of [sample_conf], line by line. *)
Example emitted_sample_conf :
  emitted (task_kwargs (PDict sample_conf))
  = src_lines
      [ "This DAG was triggered with the following parameters:";
        "{";
        "    `x`: 3,";
        "    `text`: `Hello World!`,";
        "    `a_simple_list`: [";
        "        `one`,";
        "        `two`";
        "    ]";
        "}";
        EmptyString ].
Proof. vm_compute. reflexivity. Qed.

(** An empty dictionary is reported like an absent configuration. *)
Example emitted_empty_conf :
  emitted (task_kwargs (PDict [])) = emitted (task_kwargs PNone)
  /\ emitted (task_kwargs PNone) = no_params_message ++ [10%N]
  /\ outcome (task_kwargs (PDict []))
     = inl (AirflowSkipException skip_message).
Proof. repeat split. Qed.

(** Without a task instance among the keyword arguments the body fails on
    its first line. *)
Example outcome_without_ti : outcome (∅ : gmap string ctxobj) = inl (KeyError "ti").
Proof. reflexivity. Qed.

(** The encoder escapes the double quote, the backslash and every
    character outside the range from space to tilde. *)
Example escape_examples :
  key_text (src "a`b") = [dquote; 97; backslash; dquote; 98; dquote]%N
  /\ key_text [103; 114; 246; 223; 101]%N = src "`gr\u00f6\u00dfe`"
  /\ key_text [128512%N] = src "`\ud83d\ude00`"
  /\ key_text [9; 127]%N = src "`\t\u007f`".
Proof. repeat split. Qed.

(** A key with a double quote in it stands in the report in its escaped
    form only. *)
Example escaped_key_in_report :
  occurs_in (key_text (src "a`b"))
            (emitted (task_kwargs (PDict [(src "a`b", PInt 1)])))
  /\ ~ occurs_in (src "a`b")
                 (emitted (task_kwargs (PDict [(src "a`b", PInt 1)]))).
Proof.
  split.
  - apply occurs_inb_sound. vm_compute. reflexivity.
  - intros H. apply occurs_inb_complete in H. vm_compute in H. discriminate.
Qed.

End Runs.

(** * The text of a report *)

Section JsonText.
Context {F : PyFloat}.

(** Induction on values, with the elements of lists and dictionaries. *)
Lemma pyval_nested_ind (P : pyval -> Prop) :
  P PNone ->
  (forall b, P (PBool b)) ->
  (forall z, P (PInt z)) ->
  (forall x, P (PFloat x)) ->
  (forall s, P (PStr s)) ->
  (forall elems, Forall P elems -> P (PList elems)) ->
  (forall items, Forall (fun kv => P kv.2) items -> P (PDict items)) ->
  forall v, P v.
Proof.
  intros HN HB HI HF HS HL HD.
  fix IH 1. intros [ | b | z | x | s | elems | items ].
  - exact HN.
  - apply HB.
  - apply HI.
  - apply HF.
  - apply HS.
  - apply HL. induction elems as [|e elems IHl]; constructor; [apply IH | exact IHl].
  - apply HD. induction items as [|[k e] items IHl]; constructor; [apply IH | exact IHl].
Qed.

Lemma hex_digit_printable (x : N) : printable (hex_digit (N.land x 15)) = true.
Proof.
  assert (H : (N.land x 15 < 16)%N).
  { change 15%N with (N.ones 4). rewrite N.land_ones. apply N.mod_lt. discriminate. }
  unfold hex_digit, printable.
  destruct (N.ltb_spec (N.land x 15) 10);
    apply andb_true_intro; split; apply N.leb_le; lia.
Qed.

Lemma hex4_printable (n : N) : ascii_line (hex4 n).
Proof.
  unfold ascii_line, hex4. cbn [forallb].
  now rewrite !hex_digit_printable.
Qed.

Lemma ascii_line_app (s t : pystr) :
  ascii_line s -> ascii_line t -> ascii_line (s ++ t).
Proof. unfold ascii_line. intros Hs Ht. now rewrite forallb_app, Hs, Ht. Qed.

Lemma escape_char_printable (c : N) : ascii_line (escape_char c).
Proof.
  unfold escape_char.
  repeat match goal with
         | |- context [if ?b then _ else _] => destruct b eqn:?
         end;
    try reflexivity.
  - unfold ascii_line. cbn. unfold printable. now rewrite Heqb1.
  - apply (ascii_line_app [backslash; 117%N]); [reflexivity | apply hex4_printable].
  - apply (ascii_line_app [backslash; 117%N]); [reflexivity|].
    apply ascii_line_app; [apply hex4_printable|].
    apply (ascii_line_app [backslash; 117%N]); [reflexivity | apply hex4_printable].
Qed.

Lemma lit_uint_digits (d : Decimal.uint) :
  forallb (fun c => N.leb 48 c && N.leb c 57)
          (lit (NilEmpty.string_of_uint d)) = true.
Proof. induction d; cbn; auto. Qed.

Lemma digits_printable (s : pystr) :
  forallb (fun c => N.leb 48 c && N.leb c 57) s = true -> ascii_line s.
Proof.
  unfold ascii_line. intros H. rewrite forallb_forall in H |- *.
  intros c Hc. specialize (H c Hc).
  apply andb_prop in H as [H1 H2]. apply N.leb_le in H1, H2.
  unfold printable. apply andb_true_intro; split; apply N.leb_le; lia.
Qed.

Lemma int_repr_printable (z : Z) : ascii_line (int_repr z).
Proof.
  unfold int_repr, NilZero.string_of_int, NilZero.string_of_uint.
  destruct (Z.to_int z) as [d|d]; destruct d;
    try reflexivity;
    try (apply digits_printable, (lit_uint_digits (_ _)));
    try (apply (ascii_line_app [45%N]); [reflexivity|];
         apply digits_printable, (lit_uint_digits (_ _))).
Qed.

Lemma ascii_line_text (s : pystr) : ascii_line s -> ascii_text s.
Proof.
  unfold ascii_line, ascii_text. rewrite !forallb_forall.
  intros H c Hc. now rewrite (H c Hc).
Qed.

Lemma ascii_text_app (s t : pystr) :
  ascii_text s -> ascii_text t -> ascii_text (s ++ t).
Proof. unfold ascii_text. intros Hs Ht. now rewrite forallb_app, Hs, Ht. Qed.

Lemma ascii_line_concat (parts : list pystr) :
  Forall ascii_line parts -> ascii_line (List.concat parts).
Proof.
  induction 1 as [|p parts Hp _ IH]; [reflexivity|].
  cbn. now apply ascii_line_app.
Qed.

Lemma line_feeds_app (s t : pystr) :
  line_feeds (s ++ t) = line_feeds s + line_feeds t.
Proof. unfold line_feeds. now rewrite List.filter_app, List.length_app. Qed.

Lemma ascii_line_no_feed (s : pystr) : ascii_line s -> line_feeds s = 0.
Proof.
  unfold ascii_line, line_feeds. induction s as [|c s IH]; [reflexivity|].
  cbn. intros H. apply andb_prop in H as [Hc Hs].
  destruct (N.eqb_spec c 10) as [->|_]; [discriminate | auto].
Qed.

Lemma encoded_string_printable (s : pystr) :
  ascii_line (encode_basestring_ascii s).
Proof.
  unfold encode_basestring_ascii.
  apply (ascii_line_app [dquote]); [reflexivity|].
  apply ascii_line_app; [|reflexivity].
  apply ascii_line_concat, List.Forall_forall. intros p Hp.
  apply in_map_iff in Hp as (c & <- & _). apply escape_char_printable.
Qed.

(** X1. Whatever characters a string holds (quotes, control characters,
    line feeds, characters outside ASCII), its JSON text is one line of
    printable ASCII characters, at least two characters longer than the
    string. *)
Theorem encode_basestring_ascii_printable (s : pystr) :
  ascii_line (encode_basestring_ascii s)
  /\ line_feeds (encode_basestring_ascii s) = 0
  /\ List.length s + 2 <= List.length (encode_basestring_ascii s).
Proof.
  pose proof (encoded_string_printable s) as H.
  split; [exact H | split; [now apply ascii_line_no_feed|]].
  unfold encode_basestring_ascii. rewrite !List.length_app.
  cbn [List.length].
  enough (List.length s <= List.length (List.concat (List.map escape_char s))).
  { lia. }
  clear H. induction s as [|c s IH]; [reflexivity|].
  cbn. rewrite List.length_app.
  assert (1 <= List.length (escape_char c)); [|lia].
  unfold escape_char.
  repeat match goal with
         | |- context [if ?b then _ else _] => destruct b
         end; cbn; lia.
Qed.

Lemma ascii_text_join (sep : pystr) (parts : list pystr) :
  ascii_text sep -> Forall ascii_text parts -> ascii_text (join sep parts).
Proof.
  intros Hsep. induction 1 as [|p parts Hp Hparts IH]; [reflexivity|].
  destruct parts as [|q parts]; [exact Hp|].
  change (join sep (p :: q :: parts)) with (p ++ sep ++ join sep (q :: parts)).
  auto using ascii_text_app.
Qed.

Lemma repeat_str_ascii_text (s : pystr) (n : nat) :
  ascii_text s -> ascii_text (repeat_str s n).
Proof. intros H. induction n; [reflexivity|]. cbn. now apply ascii_text_app. Qed.

Lemma newline_indent_ascii_text (indent : pystr) (level : nat) :
  ascii_text indent -> ascii_text (newline_indent indent level).
Proof.
  intros H. apply (ascii_text_app [10%N]); [reflexivity|].
  now apply repeat_str_ascii_text.
Qed.

Lemma iterencode_ascii_text (indent : pystr) :
  (forall x, ascii_line (float_json x)) ->
  ascii_text indent ->
  forall v level, ascii_text (iterencode indent level v).
Proof.
  intros Hf Hind.
  induction v as [ | [|] | z | x | s | elems IH | items IH ] using pyval_nested_ind;
    intros level; cbn [iterencode]; try reflexivity.
  - apply ascii_line_text, int_repr_printable.
  - apply ascii_line_text, Hf.
  - apply ascii_line_text, encoded_string_printable.
  - destruct elems as [|e elems]; [reflexivity|].
    apply ascii_text_app; [reflexivity|].
    apply ascii_text_app; [now apply newline_indent_ascii_text|].
    apply ascii_text_app;
      [|apply ascii_text_app;
        [now apply newline_indent_ascii_text | reflexivity]].
    apply ascii_text_join.
    + apply (ascii_text_app (lit ",")); [reflexivity|].
      now apply newline_indent_ascii_text.
    + apply List.Forall_forall. intros p Hp.
      apply in_map_iff in Hp as (e' & <- & He').
      rewrite List.Forall_forall in IH. now apply IH.
  - destruct items as [|kv items]; [reflexivity|].
    apply ascii_text_app; [reflexivity|].
    apply ascii_text_app; [now apply newline_indent_ascii_text|].
    apply ascii_text_app;
      [|apply ascii_text_app;
        [now apply newline_indent_ascii_text | reflexivity]].
    apply ascii_text_join.
    + apply (ascii_text_app (lit ",")); [reflexivity|].
      now apply newline_indent_ascii_text.
    + apply List.Forall_forall. intros p Hp.
      apply in_map_iff in Hp as (kv' & <- & Hkv').
      rewrite List.Forall_forall in IH.
      apply ascii_text_app;
        [apply ascii_line_text, encoded_string_printable|].
      apply (ascii_text_app (lit ": ")); [reflexivity|].
      now apply (IH kv' Hkv').
Qed.

(** X2. When the floats are written in printable ASCII, so is every
    serialization, up to its line feeds, and so is everything a run of the
    task prints, whatever its keyword arguments. *)
Theorem report_is_ascii :
  (forall x, ascii_line (float_json x)) ->
  (forall n v, ascii_text (json_dumps n v))
  /\ (forall kw, ascii_text (emitted kw)).
Proof.
  intros Hf.
  assert (Hd : forall n v, ascii_text (json_dumps n v)).
  { intros n v. apply iterencode_ascii_text; [exact Hf|].
    apply repeat_str_ascii_text. reflexivity. }
  split; [exact Hd|].
  intros kw. destruct (kw !! "ti") as [[ti|v]|] eqn:E.
  - destruct (emitted_run kw ti E) as [-> _].
    destruct (truthy (conf (dag_run ti)));
      (apply ascii_text_app; [|reflexivity]); [|reflexivity].
    unfold report_text. apply ascii_text_app; [reflexivity | apply Hd].
  - unfold emitted, show_params, mbind, py_bind, bind, kwargs_getitem.
    cbn [kwargs]. rewrite E. reflexivity.
  - unfold emitted, show_params, mbind, py_bind, bind, kwargs_getitem.
    cbn [kwargs]. rewrite E. reflexivity.
Qed.

Lemma shift_lines_app (indent s t : pystr) :
  shift_lines indent (s ++ t) = shift_lines indent s ++ shift_lines indent t.
Proof. apply List.flat_map_app. Qed.

Lemma shift_lines_no_feed (indent s : pystr) :
  line_feeds s = 0 -> shift_lines indent s = s.
Proof.
  unfold line_feeds, shift_lines. induction s as [|c s IH]; [reflexivity|].
  cbn. destruct (N.eqb c 10); [discriminate|].
  intros H. cbn. now rewrite (IH H).
Qed.

Lemma shift_lines_join (indent sep : pystr) (parts : list pystr) :
  shift_lines indent (join sep parts)
  = join (shift_lines indent sep) (List.map (shift_lines indent) parts).
Proof.
  induction parts as [|p parts IH]; [reflexivity|].
  destruct parts as [|q parts]; [reflexivity|].
  change (join sep (p :: q :: parts)) with (p ++ sep ++ join sep (q :: parts)).
  rewrite !shift_lines_app, IH. reflexivity.
Qed.

Lemma line_feeds_repeat_str (s : pystr) (n : nat) :
  line_feeds s = 0 -> line_feeds (repeat_str s n) = 0.
Proof.
  intros H. induction n as [|n IH]; [reflexivity|].
  cbn [repeat_str]. now rewrite line_feeds_app, H, IH.
Qed.

Lemma shift_lines_newline_indent (indent : pystr) (level : nat) :
  line_feeds indent = 0 ->
  shift_lines indent (newline_indent indent level)
  = newline_indent indent (S level).
Proof.
  intros H. unfold newline_indent.
  change (10%N :: repeat_str indent level)
    with ([10%N] ++ repeat_str indent level).
  rewrite shift_lines_app.
  rewrite (shift_lines_no_feed indent (repeat_str indent level))
    by now apply line_feeds_repeat_str.
  cbn. now rewrite app_nil_r.
Qed.

(** X3. Nesting a value one level deeper changes its text only by
    putting one more indent after each of its line feeds. *)
Theorem iterencode_deeper_is_shifted (indent : pystr) :
  (forall x, line_feeds (float_json x) = 0) ->
  line_feeds indent = 0 ->
  forall v level,
    iterencode indent (S level) v
    = shift_lines indent (iterencode indent level v).
Proof.
  intros Hf Hind.
  assert (Hsep : forall level,
            shift_lines indent (lit "," ++ newline_indent indent level)
            = lit "," ++ newline_indent indent (S level)).
  { intros level. rewrite shift_lines_app, shift_lines_newline_indent by exact Hind.
    reflexivity. }
  induction v as [ | [|] | z | x | s | elems IH | items IH ] using pyval_nested_ind;
    intros level; cbn [iterencode]; try reflexivity.
  - symmetry. apply shift_lines_no_feed, ascii_line_no_feed, int_repr_printable.
  - symmetry. apply shift_lines_no_feed, Hf.
  - symmetry. apply shift_lines_no_feed, ascii_line_no_feed, encoded_string_printable.
  - destruct elems as [|e elems]; [reflexivity|].
    rewrite !shift_lines_app, shift_lines_join, Hsep,
      !shift_lines_newline_indent by exact Hind.
    rewrite List.map_map.
    rewrite (List.map_ext_in (iterencode indent (S (S level)))
               (fun x => shift_lines indent (iterencode indent (S level) x))).
    + reflexivity.
    + intros e' He'. rewrite List.Forall_forall in IH. now apply IH.
  - destruct items as [|kv items]; [reflexivity|].
    rewrite !shift_lines_app, shift_lines_join, Hsep,
      !shift_lines_newline_indent by exact Hind.
    rewrite List.map_map.
    rewrite (List.map_ext_in
               (fun kv => encode_basestring_ascii kv.1 ++ lit ": "
                          ++ iterencode indent (S (S level)) kv.2)
               (fun x => shift_lines indent
                           (encode_basestring_ascii x.1 ++ lit ": "
                            ++ iterencode indent (S level) x.2))).
    + reflexivity.
    + intros kv' Hkv'. rewrite List.Forall_forall in IH.
      rewrite !shift_lines_app, <- (IH kv' Hkv').
      rewrite (shift_lines_no_feed indent (encode_basestring_ascii kv'.1))
        by apply ascii_line_no_feed, encoded_string_printable.
      reflexivity.
Qed.

Lemma line_feeds_join_lines (sep : pystr) (parts : list pystr) :
  Forall (fun p => line_feeds p = 0) parts ->
  line_feeds (join sep parts) = (List.length parts - 1) * line_feeds sep.
Proof.
  induction 1 as [|p parts Hp Hparts IH]; [reflexivity|].
  destruct parts as [|q parts]; [cbn [join List.length]; rewrite Hp; lia|].
  change (join sep (p :: q :: parts)) with (p ++ sep ++ join sep (q :: parts)).
  rewrite !line_feeds_app, Hp, IH. cbn [List.length]. lia.
Qed.

Lemma line_feeds_newline_indent (indent : pystr) (level : nat) :
  line_feeds indent = 0 -> line_feeds (newline_indent indent level) = 1.
Proof.
  intros H. unfold newline_indent.
  change (10%N :: repeat_str indent level)
    with ([10%N] ++ repeat_str indent level).
  now rewrite line_feeds_app, line_feeds_repeat_str.
Qed.

Lemma one_line_value_no_feed (indent : pystr) (level : nat) (v : pyval) :
  (forall x, line_feeds (float_json x) = 0) ->
  one_line_value v = true ->
  line_feeds (iterencode indent level v) = 0.
Proof.
  intros Hf Hv.
  destruct v as [ | [|] | z | x | s | [|e elems] | [|kv items] ];
    try discriminate; cbn [iterencode]; try reflexivity.
  - apply ascii_line_no_feed, int_repr_printable.
  - apply Hf.
  - apply ascii_line_no_feed, encoded_string_printable.
Qed.

(** X4. The serialization of a configuration whose values are all
    written without line break has one line per entry between the lines of
    the two braces: as many line feeds as entries, and one more. Line feeds
    inside keys and string values do not count, they are escaped. *)
Theorem flat_report_line_feeds (items : list (pystr * pyval)) :
  (forall x, line_feeds (float_json x) = 0) ->
  items <> [] ->
  forallb (fun kv => one_line_value kv.2) items = true ->
  line_feeds (json_dumps 4 (PDict items)) = S (List.length items).
Proof.
  intros Hf Hne Hflat.
  destruct items as [|kv items]; [contradiction|].
  rewrite json_dumps_dict, !line_feeds_app.
  assert (Hi : line_feeds indent4 = 0) by reflexivity.
  rewrite !line_feeds_newline_indent by exact Hi.
  rewrite line_feeds_join_lines.
  - rewrite line_feeds_app, line_feeds_newline_indent by exact Hi.
    rewrite List.length_map.
    change (line_feeds (lit "{")) with 0.
    change (line_feeds (lit ",")) with 0.
    change (line_feeds (lit "}")) with 0.
    cbn [List.length]. lia.
  - apply List.Forall_forall. intros p Hp.
    apply in_map_iff in Hp as (kv' & <- & Hkv').
    rewrite forallb_forall in Hflat. specialize (Hflat kv' Hkv').
    unfold item_text, key_text, value_text.
    rewrite !line_feeds_app.
    rewrite (one_line_value_no_feed _ _ _ Hf Hflat).
    assert (H0 : line_feeds (encode_basestring_ascii kv'.1) = 0)
      by apply ascii_line_no_feed, encoded_string_printable.
    rewrite H0. reflexivity.
Qed.

(** X5. A run ends in one of four ways. Without a keyword argument [ti]
    it raises [KeyError] and with one that is no task instance it raises
    [AttributeError], in both cases leaving the world as it was, nothing
    printed. With a task instance it prints the diagnostic line and raises
    the skip signal when the configuration is falsy, and prints the report
    and returns otherwise. It never prints both texts. *)
Theorem show_params_outcomes (w : World) :
  (kwargs w !! "ti" = None
   /\ show_params w = (w, inl (KeyError "ti")))
  \/ (exists v, kwargs w !! "ti" = Some (CtxValue v)
                /\ show_params w = (w, inl (AttributeError "dag_run")))
  \/ (exists ti, kwargs w !! "ti" = Some (CtxTaskInstance ti)
                 /\ truthy (conf (dag_run ti)) = false
                 /\ show_params w
                    = ({| kwargs := kwargs w;
                          stdout := stdout w ++ no_params_message ++ [10%N] |},
                       inl (AirflowSkipException skip_message)))
  \/ (exists ti, kwargs w !! "ti" = Some (CtxTaskInstance ti)
                 /\ truthy (conf (dag_run ti)) = true
                 /\ show_params w
                    = ({| kwargs := kwargs w;
                          stdout := stdout w
                                    ++ report_text (conf (dag_run ti)) ++ [10%N] |},
                       inr tt)).
Proof.
  destruct (kwargs w !! "ti") as [[ti|v]|] eqn:E.
  - pose proof (show_params_run w ti E) as Hrun.
    destruct (truthy (conf (dag_run ti))) eqn:Ht.
    + right; right; right. exists ti. auto.
    + right; right; left. exists ti. auto.
  - right; left. exists v. split; [reflexivity|].
    unfold show_params, mbind, py_bind, bind, kwargs_getitem.
    rewrite E. reflexivity.
  - left. split; [reflexivity|].
    unfold show_params, mbind, py_bind, bind, kwargs_getitem.
    rewrite E. reflexivity.
Qed.

Lemma truthy_false_iff (v : pyval) :
  truthy v = false
  <-> v = PNone \/ v = PBool false \/ v = PInt 0
      \/ (exists x, v = PFloat x /\ float_truth x = false)
      \/ v = PStr [] \/ v = PList [] \/ v = PDict [].
Proof.
  split.
  - destruct v as [ | [|] | z | x | [|c s] | [|e elems] | [|kv items] ];
      cbn; intros H; try discriminate; auto 10.
    + apply negb_false_iff, Z.eqb_eq in H. subst. auto.
    + right; right; right; left. now exists x.
  - intros [->|[->|[->|[(x & -> & Hx)|[->|[->| ->]]]]]]; auto.
Qed.

(** X6. With a task instance, the run is skipped exactly for the values
    Python takes as false: [None], [False], zero, the empty string, the
    empty list and the empty dictionary. Every other value, whether a
    dictionary or not, is reported and the task returns. *)
Theorem show_params_skips_falsy_conf (w : World) (ti : TaskInstance) :
  kwargs w !! "ti" = Some (CtxTaskInstance ti) ->
  (raises_skip (show_params w).2
   <-> conf (dag_run ti) = PNone \/ conf (dag_run ti) = PBool false
       \/ conf (dag_run ti) = PInt 0
       \/ (exists x, conf (dag_run ti) = PFloat x /\ float_truth x = false)
       \/ conf (dag_run ti) = PStr [] \/ conf (dag_run ti) = PList []
       \/ conf (dag_run ti) = PDict [])
  /\ (~ raises_skip (show_params w).2 -> (show_params w).2 = inr tt).
Proof.
  intros Hti. rewrite <- truthy_false_iff.
  rewrite (show_params_run w ti Hti).
  destruct (truthy (conf (dag_run ti))); cbn.
  - split; [split; [intros [msg Hmsg]; discriminate | discriminate]|].
    reflexivity.
  - split; [split; [reflexivity | intros _; now exists skip_message]|].
    intros H. exfalso. apply H. now exists skip_message.
Qed.

End JsonText.

(** * Concrete reports *)

Section Reports.
#[local] Existing Instance no_floats.

Lemma report_is_ascii_witness :
  (forall x : @pyfloat no_floats, ascii_line (float_json x))
  /\ ascii_text (emitted (task_kwargs (PDict sample_conf))).
Proof.
  assert (H : forall x : @pyfloat no_floats, ascii_line (float_json x))
    by (intros []).
  split; [exact H|].
  apply (proj2 (report_is_ascii H)).
Defined.

Lemma iterencode_deeper_is_shifted_witness :
  (forall x : @pyfloat no_floats, line_feeds (float_json x) = 0)
  /\ line_feeds indent4 = 0
  /\ value_text (PDict sample_conf)
     = shift_lines indent4 (json_dumps 4 (PDict sample_conf)).
Proof.
  assert (H : forall x : @pyfloat no_floats, line_feeds (float_json x) = 0)
    by (intros []).
  split; [exact H | split; [reflexivity|]].
  apply (iterencode_deeper_is_shifted indent4 H eq_refl (PDict sample_conf) 0).
Defined.

Lemma flat_report_line_feeds_witness :
  (forall x : @pyfloat no_floats, line_feeds (float_json x) = 0)
  /\ flat_conf <> []
  /\ forallb (fun kv => one_line_value kv.2) flat_conf = true
  /\ line_feeds (json_dumps 4 (PDict flat_conf)) = 5.
Proof.
  assert (H : forall x : @pyfloat no_floats, line_feeds (float_json x) = 0)
    by (intros []).
  assert (Hne : flat_conf <> []) by discriminate.
  split; [exact H | split; [exact Hne | split; [reflexivity|]]].
  apply (flat_report_line_feeds flat_conf H Hne eq_refl).
Defined.

Lemma show_params_skips_falsy_conf_witness :
  kwargs (sample_world (PList [])) !! "ti"
  = Some (CtxTaskInstance {| dag_run := {| conf := PList [] |} |})
  /\ raises_skip (show_params (sample_world (PList []))).2.
Proof.
  assert (H : kwargs (sample_world (PList [])) !! "ti"
              = Some (CtxTaskInstance {| dag_run := {| conf := PList [] |} |}))
    by reflexivity.
  split; [exact H|].
  apply (proj1 (show_params_skips_falsy_conf _ _ H)).
  cbn [conf dag_run]. auto 10.
Defined.

End Reports.

(** * Dates *)

Section Dates.
Context {F : PyFloat}.

Lemma pystr_eqb_eq (s t : pystr) : pystr_eqb s t = true <-> s = t.
Proof.
  revert t. induction s as [|a s IH]; intros [|b t]; cbn; split;
    try discriminate; try reflexivity.
  - intros H. apply andb_prop in H as [Hab Hst].
    apply N.eqb_eq in Hab. apply IH in Hst. now subst.
  - intros [= -> ->]. rewrite N.eqb_refl. now apply IH.
Qed.

Lemma zfill4_digits (n : Z) :
  (0 <= n < 10000)%Z -> datetime.zfill 4 (int_repr n) = digits4 n.
Proof.
  intros Hn.
  assert (H : forallb (fun n => pystr_eqb (datetime.zfill 4 (int_repr n)) (digits4 n))
                      (py_range 0 10000) = true) by (vm_compute; reflexivity).
  rewrite forallb_forall in H. apply pystr_eqb_eq, H, py_range_In. lia.
Qed.

Lemma zfill2_digits (n : Z) :
  (0 <= n < 100)%Z -> datetime.zfill 2 (int_repr n) = digits2 n.
Proof.
  intros Hn.
  assert (H : forallb (fun n => pystr_eqb (datetime.zfill 2 (int_repr n)) (digits2 n))
                      (py_range 0 100) = true) by (vm_compute; reflexivity).
  rewrite forallb_forall in H. apply pystr_eqb_eq, H, py_range_In. lia.
Qed.

Lemma date_str_digits (d : datetime.date) :
  valid_date d ->
  datetime.date_str d
  = digits4 (datetime.year d) ++ [45%N] ++ digits2 (datetime.month d)
    ++ [45%N] ++ digits2 (datetime.day d)
  /\ List.length (datetime.date_str d) = 10.
Proof.
  intros (Hy & Hm & Hd). unfold datetime.date_str.
  rewrite zfill4_digits, !zfill2_digits by lia.
  split; reflexivity.
Qed.

Lemma digit_char_inj (a b : Z) :
  digit_char a = digit_char b -> (a mod 10 = b mod 10)%Z.
Proof.
  unfold digit_char. intros H.
  pose proof (Z.mod_pos_bound a 10 eq_refl).
  pose proof (Z.mod_pos_bound b 10 eq_refl).
  apply (f_equal Z.of_N) in H. rewrite !Z2N.id in H; lia.
Qed.

(** X9. The text of a date determines the date: two dates in the range of
    [datetime.date] that are written the same are the same. *)
Theorem date_str_injective (d1 d2 : datetime.date) :
  valid_date d1 -> valid_date d2 ->
  datetime.date_str d1 = datetime.date_str d2 -> d1 = d2.
Proof.
  intros V1 V2 H.
  rewrite (proj1 (date_str_digits d1 V1)), (proj1 (date_str_digits d2 V2)) in H.
  destruct V1 as (Hy1 & Hm1 & Hd1), V2 as (Hy2 & Hm2 & Hd2).
  destruct d1 as [y1 m1 a1], d2 as [y2 m2 a2]. cbn in *.
  injection H as E1 E2 E3 E4 E5 E6 E7 E8.
  apply digit_char_inj in E1, E2, E3, E4, E5, E6, E7, E8.
  f_equal; Z.to_euclidean_division_equations; lia.
Qed.
(** X8. Whatever days the two calls of [today()] answer, the default of
    [date] is the day of its call as four digits of year, two of month and
    two of day with dashes between, ten characters, and the default of
    [date_time] is the day of its own call written the same way and
    followed by [T12:17:00+00:00], 25 characters. *)
Theorem date_defaults_iso (today : today_calls) :
  valid_date (today_of_date_time today) ->
  valid_date (today_of_date today) ->
  exists e_date e_date_time,
    param_entry (lit "date") (params today) = Some e_date
    /\ param_entry (lit "date_time") (params today) = Some e_date_time
    /\ entry_default e_date
       = PStr (digits4 (datetime.year (today_of_date today)) ++ lit "-"
               ++ digits2 (datetime.month (today_of_date today)) ++ lit "-"
               ++ digits2 (datetime.day (today_of_date today)))
    /\ entry_default e_date_time
       = PStr (digits4 (datetime.year (today_of_date_time today)) ++ lit "-"
               ++ digits2 (datetime.month (today_of_date_time today)) ++ lit "-"
               ++ digits2 (datetime.day (today_of_date_time today))
               ++ lit "T12:17:00+00:00")
    /\ (forall s, entry_default e_date = PStr s -> List.length s = 10)
    /\ (forall s, entry_default e_date_time = PStr s -> List.length s = 25).
Proof.
  intros Hv1 Hv2.
  destruct (date_str_digits _ Hv1) as [Hd1 Hl1].
  destruct (date_str_digits _ Hv2) as [Hd2 Hl2].
  eexists. eexists. split; [reflexivity|]. split; [reflexivity|].
  cbn [entry_default].
  split; [now rewrite Hd2|].
  split; [rewrite Hd1; now rewrite <- !app_assoc|].
  split.
  - intros s [= <-]. exact Hl2.
  - intros s [= <-]. rewrite !List.length_app, Hl1. reflexivity.
Qed.

End Dates.

(** * The arguments of the DAG *)

Section Header.
Context {F : PyFloat}.

Lemma starts_with_iff (p s : pystr) :
  starts_with p s = true <-> exists rest, s = p ++ rest.
Proof.
  split; [apply starts_with_spec|]. intros [rest ->]. apply starts_with_app.
Qed.

Lemma find_from_spec (needle hay : pystr) (i : Z) :
  (pybuiltins.find_from needle hay i = (-1)%Z /\ ~ occurs_in needle hay)
  \/ (exists pre post,
        hay = pre ++ needle ++ post
        /\ pybuiltins.find_from needle hay i = (i + Z.of_nat (List.length pre))%Z
        /\ forall pre' post', hay = pre' ++ needle ++ post' ->
                              List.length pre <= List.length pre').
Proof.
  revert i. induction hay as [|c hay IH]; intros i; cbn [pybuiltins.find_from].
  - destruct (starts_with needle []) eqn:E.
    + right. apply starts_with_iff in E as [rest E].
      exists [], rest. cbn. repeat split; [exact E | lia | intros; lia].
    + left. split; [reflexivity|]. intros (pre & post & H).
      destruct pre; [|discriminate]. cbn in H.
      assert (starts_with needle [] = true) by (apply starts_with_iff; eauto).
      congruence.
  - destruct (starts_with needle (c :: hay)) eqn:E.
    + right. apply starts_with_iff in E as [rest E].
      exists [], rest. cbn. repeat split; [exact E | lia | intros; lia].
    + destruct (IH (i + 1)%Z) as [[Hf Hno] | (pre & post & Hh & Hf & Hmin)].
      * left. split; [exact Hf|]. intros (pre & post & H).
        destruct pre as [|c' pre].
        -- assert (starts_with needle (c :: hay) = true)
             by (apply starts_with_iff; eauto).
           congruence.
        -- injection H as _ H. apply Hno. now exists pre, post.
      * right. exists (c :: pre), post. repeat split.
        -- cbn. now rewrite Hh.
        -- rewrite Hf. cbn [List.length]. lia.
        -- intros pre' post' H. destruct pre' as [|c' pre'].
           ++ assert (starts_with needle (c :: hay) = true)
                by (apply starts_with_iff; eauto).
              congruence.
           ++ injection H as _ H. specialize (Hmin pre' post' H).
              cbn [List.length]. lia.
Qed.

Lemma find_first_occurrence (needle hay : pystr) :
  (pybuiltins.find needle hay = (-1)%Z /\ ~ occurs_in needle hay)
  \/ (exists pre post,
        hay = pre ++ needle ++ post
        /\ pybuiltins.find needle hay = Z.of_nat (List.length pre)
        /\ forall pre' post', hay = pre' ++ needle ++ post' ->
                              List.length pre <= List.length pre').
Proof.
  destruct (find_from_spec needle hay 0) as [H | (pre & post & H1 & H2 & H3)].
  - now left.
  - right. exists pre, post. repeat split; [exact H1 | exact H2 | exact H3].
Qed.

Lemma slice_from_start (s : pystr) (k : nat) :
  k <= List.length s ->
  pybuiltins.slice s 0 (Z.of_nat k) = List.firstn k s.
Proof.
  intros Hk. unfold pybuiltins.slice, pybuiltins.slice_bound.
  change (Z.ltb 0 0) with false. cbv beta iota.
  destruct (Z.ltb_spec (Z.of_nat k) 0); [lia|].
  rewrite (Z.min_l 0), (Z.min_l (Z.of_nat k)) by lia.
  change (Z.to_nat 0) with 0%nat.
  change (List.skipn 0 s) with s.
  now rewrite Z.sub_0_r, Nat2Z.id.
Qed.

Lemma slice_drop_last (s : pystr) :
  pybuiltins.slice s 0 (-1) = List.removelast s.
Proof.
  unfold pybuiltins.slice, pybuiltins.slice_bound.
  change (Z.ltb 0 0) with false. change (Z.ltb (-1) 0) with true.
  cbv beta iota. rewrite (Z.min_l 0) by lia.
  change (Z.to_nat 0) with 0. cbn [List.skipn]. rewrite Z.sub_0_r.
  destruct s as [|c s _] using rev_ind; [reflexivity|].
  rewrite List.removelast_last, List.length_app. cbn [List.length].
  replace (Z.to_nat (Z.max (-1 + Z.of_nat (List.length s + 1)) 0))
    with (List.length s) by lia.
  change (List.skipn 0 (s ++ [c])) with (s ++ [c]).
  rewrite List.firstn_app, Nat.sub_diag, List.firstn_all. cbn [List.firstn].
  apply app_nil_r.
Qed.

(** X10. The description [doc[0 : doc.find(".")]] of a docstring with a
    period is the text before its first period. Of a docstring without
    period it is the docstring less its last character, because [find]
    answers -1 and the slice takes that as an index from the end. *)
Theorem first_sentence_spec (doc : pystr) :
  (In 46%N doc
   /\ ~ In 46%N (first_sentence doc)
   /\ exists rest, doc = first_sentence doc ++ [46%N] ++ rest)
  \/ (~ In 46%N doc /\ first_sentence doc = List.removelast doc).
Proof.
  unfold first_sentence.
  destruct (find_first_occurrence (lit ".") doc)
    as [[Hf Hno] | (pre & post & Hd & Hf & Hmin)].
  - right. rewrite Hf. split; [|apply slice_drop_last].
    intros Hin. apply Hno. apply in_split in Hin as (a & b & ->).
    now exists a, b.
  - left. rewrite Hf.
    assert (Hpre : pybuiltins.slice doc 0 (Z.of_nat (List.length pre)) = pre).
    { rewrite slice_from_start by (rewrite Hd, List.length_app; lia).
      rewrite Hd, List.firstn_app, Nat.sub_diag, List.firstn_all. cbn.
      now rewrite app_nil_r. }
    rewrite Hpre. repeat split.
    + rewrite Hd. apply in_or_app. right. now left.
    + intros Hin. apply in_split in Hin as (a & b & Hab).
      specialize (Hmin a (b ++ [46%N] ++ post)).
      rewrite Hab, List.length_app in Hmin. cbn [List.length] in Hmin.
      enough (List.length a + S (List.length b) <= List.length a) by lia.
      apply Hmin. rewrite Hd, Hab. now rewrite <- !app_assoc.
    + now exists post.
Qed.

Lemma rfind_from_spec (needle hay : pystr) (i : Z) :
  (0 <= i)%Z ->
  (pybuiltins.rfind_from needle hay i = (-1)%Z /\ ~ occurs_in needle hay)
  \/ (exists pre post,
        hay = pre ++ needle ++ post
        /\ pybuiltins.rfind_from needle hay i = (i + Z.of_nat (List.length pre))%Z
        /\ forall pre' post', hay = pre' ++ needle ++ post' ->
                              List.length pre' <= List.length pre).
Proof.
  revert i. induction hay as [|c hay IH]; intros i Hi;
    cbn [pybuiltins.rfind_from].
  - destruct (starts_with needle []) eqn:E.
    + right. apply starts_with_iff in E as [rest E].
      exists [], rest. cbn. repeat split; [exact E | lia |].
      intros pre' post' H. destruct pre'; [cbn; lia | discriminate].
    + left. split; [reflexivity|]. intros (pre & post & H).
      destruct pre; [|discriminate]. cbn in H.
      assert (starts_with needle [] = true) by (apply starts_with_iff; eauto).
      congruence.
  - destruct (IH (i + 1)%Z ltac:(lia)) as [[Hf Hno] | (pre & post & Hh & Hf & Hmax)].
    + rewrite Hf. change (Z.leb 0 (-1)) with false. cbv beta iota.
      destruct (starts_with needle (c :: hay)) eqn:E.
      * right. apply starts_with_iff in E as [rest E].
        exists [], rest. cbn. repeat split; [exact E | lia |].
        intros pre' post' H. destruct pre' as [|c' pre']; [cbn; lia|].
        injection H as _ H. exfalso. apply Hno. now exists pre', post'.
      * left. split; [reflexivity|]. intros (pre & post & H).
        destruct pre as [|c' pre].
        -- assert (starts_with needle (c :: hay) = true)
             by (apply starts_with_iff; eauto).
           congruence.
        -- injection H as _ H. apply Hno. now exists pre, post.
    + rewrite Hf.
      destruct (Z.leb_spec 0 (i + 1 + Z.of_nat (List.length pre))); [|lia].
      right. exists (c :: pre), post. repeat split.
      * cbn. now rewrite Hh.
      * cbn [List.length]. lia.
      * intros pre' post' Hd'. destruct pre' as [|c' pre']; [cbn; lia|].
        injection Hd' as _ Hd'. specialize (Hmax pre' post' Hd').
        cbn [List.length]. lia.
Qed.

(** X11. The stem of a file name is the name without its last suffix, the
    text after the last period, when that period neither starts nor ends
    the name; every other name, without period or with its only period in
    front or with a period at its end, is its own stem. *)
Theorem name_stem_spec (nm : pystr) :
  (exists base ext,
     nm = base ++ [46%N] ++ ext /\ base <> [] /\ ext <> []
     /\ ~ In 46%N ext /\ pathlib.name_stem nm = base)
  \/ (pathlib.name_stem nm = nm
      /\ (~ In 46%N nm
          \/ (exists ext, nm = 46%N :: ext /\ ~ In 46%N ext)
          \/ (exists base, nm = base ++ [46%N]))).
Proof.
  unfold pathlib.name_stem, pybuiltins.rfind.
  destruct (rfind_from_spec (lit ".") nm 0 ltac:(lia))
    as [[Hf Hno] | (pre & post & Hd & Hf & Hmax)].
  - right. rewrite Hf. split; [reflexivity|]. left.
    intros Hin. apply Hno. apply in_split in Hin as (a & b & ->).
    now exists a, b.
  - rewrite Hf. change (lit ".") with [46%N] in Hd, Hmax.
    assert (Hpost : ~ In 46%N post).
    { intros Hin. apply in_split in Hin as (a & b & Hab).
      specialize (Hmax (pre ++ [46%N] ++ a) b).
      rewrite !List.length_app in Hmax. cbn [List.length] in Hmax.
      enough (List.length pre + (1 + List.length a) <= List.length pre) by lia.
      apply Hmax. rewrite Hd, Hab. now rewrite <- !app_assoc. }
    destruct pre as [|c pre].
    + right. split; [reflexivity|]. right; left. now exists post.
    + destruct post as [|d post].
      * right. split.
        -- destruct (_ && _) eqn:E; [|reflexivity].
           apply andb_prop in E as [_ E]. apply Z.ltb_lt in E.
           rewrite Hd, List.length_app in E. cbn [List.length app] in E. lia.
        -- right; right. now exists (c :: pre).
      * left. exists (c :: pre), (d :: post).
        repeat split; try discriminate; [exact Hd | exact Hpost|].
        assert (Hlen : List.length nm
                       = List.length (c :: pre) + S (S (List.length post))).
        { rewrite Hd, !List.length_app. reflexivity. }
        destruct (_ && _) eqn:E.
        2:{ apply andb_false_iff in E as [E|E]; apply Z.ltb_ge in E;
            cbn [List.length] in *; lia. }
        rewrite Z.add_0_l, slice_from_start by lia.
        rewrite Hd, List.firstn_app, Nat.sub_diag, List.firstn_all.
        cbn [List.firstn]. apply app_nil_r.
Qed.

Lemma split_on_nonempty (sep : N) (s : pystr) : pathlib.split_on sep s <> [].
Proof.
  destruct s as [|c s]; cbn; [discriminate|].
  destruct (N.eqb c sep); [discriminate|].
  destruct (pathlib.split_on sep s); discriminate.
Qed.

Lemma split_on_app_sep (sep : N) (a b : pystr) :
  pathlib.split_on sep (a ++ sep :: b)
  = pathlib.split_on sep a ++ pathlib.split_on sep b.
Proof.
  induction a as [|c a IH]; cbn.
  - now rewrite N.eqb_refl.
  - destruct (N.eqb c sep); [now rewrite IH|].
    rewrite IH. pose proof (split_on_nonempty sep a) as Hne.
    destruct (pathlib.split_on sep a); [contradiction | reflexivity].
Qed.

Lemma split_on_no_sep (sep : N) (s : pystr) :
  ~ In sep s -> pathlib.split_on sep s = [s].
Proof.
  induction s as [|c s IH]; [reflexivity|]. intros Hin. cbn.
  destruct (N.eqb_spec c sep) as [->|_]; [exfalso; apply Hin; now left|].
  rewrite IH; [reflexivity|]. intros H. apply Hin. now right.
Qed.

(** X12. The stem of a path depends on its last component only: for a
    file name without slash, not empty and not a single dot, in whatever
    directory, [Path(file).stem] is the stem of the name. So the [dag_id]
    does not depend on where the module file lies. *)
Theorem stem_of_file (dir nm : pystr) :
  ~ In 47%N nm -> nm <> [] -> nm <> lit "." ->
  pathlib.name (dir ++ [47%N] ++ nm) = nm
  /\ pathlib.stem (dir ++ [47%N] ++ nm) = pathlib.name_stem nm.
Proof.
  intros Hsl Hne Hdot.
  assert (Hname : pathlib.name (dir ++ [47%N] ++ nm) = nm).
  { unfold pathlib.name, pathlib.parts.
    change (dir ++ [47%N] ++ nm) with (dir ++ 47%N :: nm).
    rewrite split_on_app_sep, List.filter_app, (split_on_no_sep 47 nm Hsl).
    cbn [List.filter].
    destruct (pystr_eqb nm []) eqn:E1;
      [apply pystr_eqb_eq in E1; contradiction|].
    destruct (pystr_eqb nm (lit ".")) eqn:E2;
      [apply pystr_eqb_eq in E2; contradiction|].
    cbn [negb andb]. apply List.last_last. }
  split; [exact Hname|]. unfold pathlib.stem. now rewrite Hname.
Qed.

End Header.

(** * The colour picker *)

Section PickerFacts.
Import js ColorPicker.

Lemma range_forallb (P : Z -> bool) (a b : Z) :
  forallb P (py_range a b) = true ->
  forall i, (a <= i < b)%Z -> P i = true.
Proof.
  intros H i Hi. rewrite forallb_forall in H. apply H, py_range_In, Hi.
Qed.

Lemma i2hex_read_back (i : Z) :
  slider_range i ->
  hex2i (i2hex i) = i
  /\ List.length (i2hex i) = 2
  /\ forallb is_hex (i2hex i) = true
  /\ toUpperCase (i2hex i) = i2hex i.
Proof.
  intros Hi.
  pose proof (range_forallb
    (fun i => Z.eqb (hex2i (i2hex i)) i
              && Nat.eqb (List.length (i2hex i)) 2
              && forallb is_hex (i2hex i)
              && pystr_eqb (toUpperCase (i2hex i)) (i2hex i))
    0 256 ltac:(vm_compute; reflexivity) i ltac:(unfold slider_range in Hi; lia)) as H.
  cbv beta in H.
  apply andb_prop in H as [H H4]. apply andb_prop in H as [H H3].
  apply andb_prop in H as [H1 H2].
  apply Z.eqb_eq in H1. apply Nat.eqb_eq in H2. apply pystr_eqb_eq in H4.
  auto.
Qed.

(** X13. For every value a slider can hold, 0 to 255, [i2hex] writes two
    upper-case hexadecimal digits and [hex2i] reads the value back. *)
Theorem hex2i_i2hex (i : Z) :
  slider_range i ->
  hex2i (i2hex i) = i
  /\ List.length (i2hex i) = 2
  /\ forallb is_hex (i2hex i) = true
  /\ toUpperCase (i2hex i) = i2hex i.
Proof.
  intros Hi.
  pose proof (range_forallb
    (fun i => Z.eqb (hex2i (i2hex i)) i
              && Nat.eqb (List.length (i2hex i)) 2
              && forallb is_hex (i2hex i)
              && pystr_eqb (toUpperCase (i2hex i)) (i2hex i))
    0 256 ltac:(vm_compute; reflexivity) i ltac:(unfold slider_range in Hi; lia)) as H.
  cbv beta in H.
  apply andb_prop in H as [H H4]. apply andb_prop in H as [H H3].
  apply andb_prop in H as [H1 H2].
  apply Z.eqb_eq in H1. apply Nat.eqb_eq in H2. apply pystr_eqb_eq in H4.
  auto.
Qed.

Lemma substr_length (s : jsstr) (start len : Z) :
  (Z.of_nat (List.length (substr s start len)) <= Z.max len 0)%Z.
Proof.
  unfold substr. rewrite List.length_firstn.
  destruct (Z.ltb start 0); lia.
Qed.

Lemma indexOf_hex_char (c : N) :
  (-1 <= indexOf hex_chars [c] <= 15)%Z
  /\ (indexOf hex_chars [c] = (-1)%Z <-> ~ In c hex_chars).
Proof.
  unfold indexOf, hex_chars. cbn.
  repeat match goal with
         | |- context [N.eqb c ?k] => destruct (N.eqb_spec c k) as [->|?]
         end; cbn;
    (split; [lia|]); (split; [intros H; try discriminate | intros H]);
    try (exfalso; apply H; cbn; tauto); try reflexivity.
  cbn. intuition congruence.
Qed.

Lemma indexOf_hex_short (x : jsstr) :
  List.length x <= 1 -> (-1 <= indexOf hex_chars x <= 15)%Z.
Proof.
  destruct x as [|c [|d x]]; cbn [List.length]; intros H; try lia.
  - cbn. lia.
  - apply indexOf_hex_char.
Qed.

(** X14. [hex2i] checks nothing: its result lies between -17 and 255
    whatever the text, it is negative when the first character is no
    upper-case hexadecimal digit, and it is 0 for the empty text. *)
Theorem hex2i_unchecked (text : jsstr) :
  (-17 <= hex2i text <= 255)%Z
  /\ (forall c rest, text = c :: rest -> ~ In c hex_chars -> hex2i text < 0)%Z
  /\ (text = [] -> hex2i text = 0%Z).
Proof.
  assert (Hlen : forall k, List.length (substr text k 1) <= 1).
  { intros k. pose proof (substr_length text k 1). lia. }
  pose proof (indexOf_hex_short _ (Hlen 0%Z)) as Ha.
  pose proof (indexOf_hex_short _ (Hlen 1%Z)) as Hb.
  split; [unfold hex2i; lia|]. split.
  - intros c rest -> Hc. unfold hex2i.
    assert (E : substr (c :: rest) 0 1 = [c]).
    { unfold substr. cbn [List.length].
      change (Z.ltb 0 0) with false. cbv beta iota.
      rewrite (Z.min_l 0), (Z.max_l 1), (Z.min_l 1), (Z.min_l (0 + 1)) by lia.
      reflexivity. }
    rewrite E in *. apply (proj2 (indexOf_hex_char c)) in Hc. lia.
  - intros ->. reflexivity.
Qed.

Lemma i2hex_two (i : Z) :
  slider_range i ->
  exists a b, i2hex i = [a; b] /\ toUpperCase [a; b] = [a; b]
              /\ hex2i [a; b] = i.
Proof.
  intros Hi. destruct (i2hex_read_back i Hi) as (H1 & H2 & _ & H4).
  destruct (i2hex i) as [|a [|b [|c l]]]; try discriminate.
  now exists a, b.
Qed.

(** X15. After a slider moved, with the three sliders in range, the text
    field and the preview hold the colour, a hash sign and the six digits
    of the three values, seven characters, the sliders are where they
    were and [updateJSONconf()] was called once more; and reading the text
    field back with [v_{name}()] changes nothing: the sliders keep their
    values and no further call is made. *)
Theorem v_after_u (p : Picker) :
  slider_range (red p) -> slider_range (green p) -> slider_range (blue p) ->
  v_name (u_name p) = u_name p
  /\ field (u_name p)
     = lit "#" ++ i2hex (red p) ++ i2hex (green p) ++ i2hex (blue p)
  /\ List.length (field (u_name p)) = 7
  /\ is_colour (field (u_name p))
  /\ preview (u_name p) = field (u_name p)
  /\ conf_updates (u_name p) = S (conf_updates p)
  /\ conf_updates (v_name (u_name p)) = S (conf_updates p)
  /\ red (u_name p) = red p
  /\ green (u_name p) = green p
  /\ blue (u_name p) = blue p.
Proof.
  intros Hr Hg Hb.
  enough (H : v_name (u_name p) = u_name p
              /\ field (u_name p)
                 = lit "#" ++ i2hex (red p) ++ i2hex (green p) ++ i2hex (blue p)
              /\ List.length (field (u_name p)) = 7
              /\ is_colour (field (u_name p))).
  { destruct H as (H1 & H2 & H3 & H4).
    repeat split; assumption. }
  destruct (i2hex_read_back _ Hr) as (_ & _ & Xr & _).
  destruct (i2hex_read_back _ Hg) as (_ & _ & Xg & _).
  destruct (i2hex_read_back _ Hb) as (_ & _ & Xb & _).
  destruct (i2hex_two _ Hr) as (r1 & r2 & Er & Ur & Vr).
  destruct (i2hex_two _ Hg) as (g1 & g2 & Eg & Ug & Vg).
  destruct (i2hex_two _ Hb) as (b1 & b2 & Eb & Ub & Vb).
  unfold u_name, v_name. cbn [red green blue field preview conf_updates].
  rewrite Er, Eg, Eb in *.
  injection Ur as Ur1 Ur2. injection Ug as Ug1 Ug2. injection Ub as Ub1 Ub2.
  change (toUpperCase (lit "#" ++ [r1; r2] ++ [g1; g2] ++ [b1; b2]))
    with (35%N :: toUpperCase [r1; r2] ++ toUpperCase [g1; g2]
          ++ toUpperCase [b1; b2]).
  cbn [toUpperCase List.map app].
  rewrite Ur1, Ur2, Ug1, Ug2, Ub1, Ub2.
  change (substr [35%N; r1; r2; g1; g2; b1; b2] 1 2) with [r1; r2].
  change (substr [35%N; r1; r2; g1; g2; b1; b2] 3 2) with [g1; g2].
  change (substr [35%N; r1; r2; g1; g2; b1; b2] 5 2) with [b1; b2].
  rewrite Vr, Vg, Vb.
  repeat split.
  exists [r1; r2; g1; g2; b1; b2]. repeat split.
  cbn [forallb] in *.
  repeat match goal with
         | H : _ && _ = true |- _ => apply andb_prop in H as [? ?]
         end.
  repeat (apply andb_true_intro; split); assumption || reflexivity.
Qed.

Lemma is_hex_In (c : N) : is_hex c = true -> In c hex_digits_any.
Proof.
  unfold is_hex. intros H.
  assert (Hc : (48 <= c <= 57 \/ 65 <= c <= 70 \/ 97 <= c <= 102)%N).
  { apply orb_prop in H as [H|H]; [apply orb_prop in H as [H|H]|];
      apply andb_prop in H as [H1 H2]; apply N.leb_le in H1, H2; lia. }
  assert (Hn : exists n, c = N.of_nat n /\ n <= 102).
  { exists (N.to_nat c). split; lia. }
  destruct Hn as (n & -> & Hn).
  do 103 (destruct n as [|n]; [try lia; cbn; tauto|]). lia.
Qed.

Lemma hex_pair (c1 c2 : N) :
  is_hex c1 = true -> is_hex c2 = true ->
  slider_range (hex2i (toUpperCase [c1; c2]))
  /\ i2hex (hex2i (toUpperCase [c1; c2])) = toUpperCase [c1; c2].
Proof.
  intros H1 H2. apply is_hex_In in H1, H2.
  assert (H : forallb
                (fun cc => let v := hex2i (toUpperCase [cc.1; cc.2]) in
                           Z.leb 0 v && Z.leb v 255
                           && pystr_eqb (i2hex v) (toUpperCase [cc.1; cc.2]))
                (List.list_prod hex_digits_any hex_digits_any) = true)
    by (vm_compute; reflexivity).
  rewrite forallb_forall in H.
  specialize (H (c1, c2) (proj2 (List.in_prod_iff _ _ _ _) (conj H1 H2))).
  cbv beta zeta in H. cbn [fst snd] in H.
  apply andb_prop in H as [H H3]. apply andb_prop in H as [Ha Hb].
  apply Z.leb_le in Ha, Hb. apply pystr_eqb_eq in H3.
  split; [split; assumption | exact H3].
Qed.

(** X16. For a colour typed in the text field, a hash sign and six
    hexadecimal digits in either case, [v_{name}()] sets the three sliders
    to values in range and the preview to the colour in upper case, and
    leaves the text field and the configuration alone; a slider move after
    it writes the colour in upper case into the text field. *)
Theorem u_after_v (p : Picker) :
  is_colour (field p) ->
  slider_range (red (v_name p))
  /\ slider_range (green (v_name p))
  /\ slider_range (blue (v_name p))
  /\ preview (v_name p) = toUpperCase (field p)
  /\ field (v_name p) = field p
  /\ conf_updates (v_name p) = conf_updates p
  /\ field (u_name (v_name p)) = toUpperCase (field p).
Proof.
  intros (digits & Hf & Hlen & Hhex).
  destruct digits as [|c1 [|c2 [|c3 [|c4 [|c5 [|c6 [|c7 l]]]]]]];
    try discriminate.
  cbn [forallb] in Hhex.
  repeat match goal with
         | H : _ && _ = true |- _ => apply andb_prop in H as [? ?]
         end.
  destruct (hex_pair c1 c2) as [R1 R2]; try assumption.
  destruct (hex_pair c3 c4) as [G1 G2]; try assumption.
  destruct (hex_pair c5 c6) as [B1 B2]; try assumption.
  unfold u_name, v_name. cbn [red green blue field preview conf_updates].
  rewrite Hf.
  change (substr (toUpperCase [35%N; c1; c2; c3; c4; c5; c6]) 1 2)
    with (toUpperCase [c1; c2]).
  change (substr (toUpperCase [35%N; c1; c2; c3; c4; c5; c6]) 3 2)
    with (toUpperCase [c3; c4]).
  change (substr (toUpperCase [35%N; c1; c2; c3; c4; c5; c6]) 5 2)
    with (toUpperCase [c5; c6]).
  rewrite R2, G2, B2.
  repeat split; assumption || reflexivity || apply R1 || apply G1 || apply B1.
Qed.

End PickerFacts.

(** * Reading a JSON string back *)

Section Reading.

Lemma unhex_hex_digit (d : N) :
  (d < 16)%N -> unhex_digit (hex_digit d) = d.
Proof.
  intros Hd. unfold unhex_digit, hex_digit.
  destruct (N.ltb_spec d 10).
  - destruct (N.leb_spec 97 (48 + d)); lia.
  - destruct (N.leb_spec 97 (87 + d)); lia.
Qed.

Lemma land_15 (x : N) : N.land x 15 = (x mod 16)%N.
Proof. change 15%N with (N.ones 4). now rewrite N.land_ones. Qed.

Lemma unhex4_hex4 (n : N) :
  (n < 65536)%N ->
  exists h1 h2 h3 h4, hex4 n = [h1; h2; h3; h4] /\ unhex4 h1 h2 h3 h4 = n.
Proof.
  intros Hn. unfold hex4. do 4 eexists. split; [reflexivity|].
  unfold unhex4. rewrite !land_15, !N.shiftr_div_pow2.
  rewrite !unhex_hex_digit by (apply N.mod_lt; discriminate).
  change (2 ^ 12)%N with 4096%N. change (2 ^ 8)%N with 256%N.
  change (2 ^ 4)%N with 16%N.
  zify. Z.to_euclidean_division_equations. lia.
Qed.

Lemma lor_low_bits (x : N) :
  (x < 1024)%N ->
  N.lor 55296 x = (55296 + x)%N /\ N.lor 56320 x = (56320 + x)%N.
Proof.
  intros Hx.
  assert (H : forallb (fun k => N.eqb (N.lor 55296 (N.of_nat k)) (55296 + N.of_nat k)
                                && N.eqb (N.lor 56320 (N.of_nat k)) (56320 + N.of_nat k))
                      (List.seq 0 1024) = true) by (vm_compute; reflexivity).
  rewrite forallb_forall in H. specialize (H (N.to_nat x)).
  rewrite N2Nat.id in H.
  assert (Hin : In (N.to_nat x) (List.seq 0 1024)) by (apply in_seq; lia).
  apply H in Hin. apply andb_prop in Hin as [H1 H2].
  apply N.eqb_eq in H1, H2. auto.
Qed.

Lemma read_escape_char (c : N) (rest : pystr) :
  scalar_value c = true ->
  read_char (escape_char c ++ rest) = Some (c, rest).
Proof.
  unfold scalar_value. intros Hc.
  apply andb_prop in Hc as [Hs Hmax]. apply N.leb_le in Hmax.
  unfold escape_char, backslash, dquote.
  destruct (N.eqb_spec c 92) as [->|N92]; [reflexivity|].
  destruct (N.eqb_spec c 34) as [->|N34]; [reflexivity|].
  destruct (N.leb 32 c && N.leb c 126) eqn:Hplain.
  { cbn [app read_char]. unfold backslash.
    destruct (N.eqb_spec c 92); [contradiction | reflexivity]. }
  destruct (N.eqb_spec c 8) as [->|N8]; [reflexivity|].
  destruct (N.eqb_spec c 12) as [->|N12]; [reflexivity|].
  destruct (N.eqb_spec c 10) as [->|N10]; [reflexivity|].
  destruct (N.eqb_spec c 13) as [->|N13]; [reflexivity|].
  destruct (N.eqb_spec c 9) as [->|N9]; [reflexivity|].
  destruct (N.ltb_spec c 65536) as [Hbmp|Hsup].
  - destruct (unhex4_hex4 c Hbmp) as (h1 & h2 & h3 & h4 & Eh & Eu).
    rewrite Eh. cbn [app read_char]. cbv zeta. rewrite Eu.
    change (N.eqb 92 backslash) with true.
    change (N.eqb 117 98) with false. change (N.eqb 117 102) with false.
    change (N.eqb 117 110) with false. change (N.eqb 117 114) with false.
    change (N.eqb 117 116) with false. change (N.eqb 117 117) with true.
    cbn [negb].
    destruct (N.leb 55296 c && N.leb c 56319) eqn:Hsur; [|reflexivity].
    exfalso. apply andb_prop in Hsur as [H1 H2].
    apply N.leb_le in H1, H2.
    apply orb_prop in Hs as [Hs|Hs];
      [apply N.ltb_lt in Hs | apply N.leb_le in Hs]; lia.
  - cbv zeta.
    set (n := (c - 65536)%N).
    assert (Hn : (n < 1048576)%N) by (unfold n; lia).
    assert (Hx : N.land (N.shiftr n 10) 1023 = (n / 1024)%N).
    { change 1023%N with (N.ones 10). rewrite N.land_ones, N.shiftr_div_pow2.
      change (2 ^ 10)%N with 1024%N. apply N.mod_small.
      apply N.Div0.div_lt_upper_bound. lia. }
    assert (Hy : N.land n 1023 = (n mod 1024)%N).
    { change 1023%N with (N.ones 10). now rewrite N.land_ones. }
    rewrite Hx, Hy.
    assert (Hxb : (n / 1024 < 1024)%N)
      by (apply N.Div0.div_lt_upper_bound; lia).
    assert (Hyb : (n mod 1024 < 1024)%N) by (apply N.mod_lt; discriminate).
    rewrite (proj1 (lor_low_bits _ Hxb)), (proj2 (lor_low_bits _ Hyb)).
    destruct (unhex4_hex4 (55296 + n / 1024)%N ltac:(lia))
      as (h1 & h2 & h3 & h4 & Eh & Eu).
    destruct (unhex4_hex4 (56320 + n mod 1024)%N ltac:(lia))
      as (l1 & l2 & l3 & l4 & El & Elu).
    rewrite Eh, El. cbn [app read_char]. cbv zeta. rewrite Eu, Elu.
    change (N.eqb 92 backslash) with true.
    change (N.eqb 117 98) with false. change (N.eqb 117 102) with false.
    change (N.eqb 117 110) with false. change (N.eqb 117 114) with false.
    change (N.eqb 117 116) with false. change (N.eqb 117 117) with true.
    cbn [negb andb].
    destruct (N.leb_spec 55296 (55296 + n / 1024)); [|lia].
    destruct (N.leb_spec (55296 + n / 1024) 56319); [|lia].
    cbn [negb andb]. do 2 f_equal.
    pose proof (N.div_mod n 1024 ltac:(discriminate)). unfold n in *. lia.
Qed.

Lemma escape_char_nonempty (c : N) : escape_char c <> [].
Proof.
  unfold escape_char.
  repeat match goal with
         | |- context [if ?b then _ else _] => destruct b
         end; discriminate.
Qed.

Lemma escaped_body_injective (s t : pystr) :
  forallb scalar_value s = true -> forallb scalar_value t = true ->
  List.concat (List.map escape_char s) = List.concat (List.map escape_char t) ->
  s = t.
Proof.
  revert t. induction s as [|c s IH]; intros [|d t] Hs Ht H; cbn in *.
  - reflexivity.
  - pose proof (escape_char_nonempty d). destruct (escape_char d); [contradiction | discriminate].
  - pose proof (escape_char_nonempty c). destruct (escape_char c); [contradiction | discriminate].
  - apply andb_prop in Hs as [Hc Hs]. apply andb_prop in Ht as [Hd Ht].
    pose proof (f_equal read_char H) as Hr.
    rewrite !read_escape_char in Hr by assumption.
    injection Hr as -> Hrest. f_equal. now apply IH.
Qed.

(** X7. Two strings of Unicode scalar values with the same JSON text are
    the same string: distinct keys, and distinct string values, are
    written differently. *)
Theorem encode_basestring_ascii_injective (s t : pystr) :
  forallb scalar_value s = true -> forallb scalar_value t = true ->
  encode_basestring_ascii s = encode_basestring_ascii t -> s = t.
Proof.
  intros Hs Ht H. unfold encode_basestring_ascii in H.
  apply app_inv_head in H. apply app_inv_tail in H.
  now apply escaped_body_injective.
Qed.

End Reading.

(** * The declared types of the defaults *)

Section TypeFacts.
Context {F : PyFloat}.
Variable today : today_calls.

(** X17. Every entry that declares a type has a default of that type, or
    of one of the listed types: the twelve typed entries, from
    [most_loved_number] to [color_picker], whatever the day the module is
    loaded. *)
Theorem defaults_have_declared_type :
  Forall (fun ne => type_ok ne.2 = true) (params today)
  /\ List.map fst (List.filter (fun ne => is_typed ne.2) (params today))
     = List.map lit
         [ "most_loved_number"; "pick_one"; "bool"; "date_time"; "date";
           "time"; "required_field"; "optional_field"; "checked_text";
           "checked_number"; "object"; "color_picker" ]%string.
Proof.
  split; [|reflexivity].
  unfold params. repeat (apply Forall_cons_2; [reflexivity|]).
  apply Forall_nil_2.
Qed.

End TypeFacts.

(** * Concrete dates, paths and colours *)

Section Samples.
#[local] Existing Instance no_floats.
Import js ColorPicker.

Lemma encode_basestring_ascii_injective_witness :
  forallb scalar_value (src "a`b") = true
  /\ forallb scalar_value [97; 34; 98]%N = true
  /\ encode_basestring_ascii (src "a`b") = encode_basestring_ascii [97; 34; 98]%N
  /\ src "a`b" = [97; 34; 98]%N.
Proof.
  split; [reflexivity | split; [reflexivity | split; [reflexivity|]]].
  apply (encode_basestring_ascii_injective (src "a`b") [97; 34; 98]%N);
    reflexivity.
Defined.

Lemma date_defaults_iso_witness :
  valid_date (today_of_date_time sample_days)
  /\ valid_date (today_of_date sample_days)
  /\ exists e_date e_date_time,
       param_entry (lit "date") (params sample_days) = Some e_date
       /\ param_entry (lit "date_time") (params sample_days) = Some e_date_time
       /\ entry_default e_date = PStr (lit "2024-03-08")
       /\ entry_default e_date_time = PStr (lit "2024-03-07T12:17:00+00:00").
Proof.
  assert (Hv1 : valid_date (today_of_date_time sample_days))
    by (cbv; intuition discriminate).
  assert (Hv2 : valid_date (today_of_date sample_days))
    by (cbv; intuition discriminate).
  split; [exact Hv1 | split; [exact Hv2|]].
  destruct (date_defaults_iso sample_days Hv1 Hv2)
    as (e1 & e2 & H1 & H2 & H3 & H4 & _).
  exists e1, e2. repeat split; assumption.
Defined.

Lemma date_str_injective_witness :
  valid_date sample_day
  /\ datetime.date_str sample_day = datetime.date_str (datetime.Date 2024 3 7)
  /\ sample_day = datetime.Date 2024 3 7.
Proof.
  assert (Hv : valid_date sample_day) by (cbv; intuition discriminate).
  split; [exact Hv | split; [reflexivity|]].
  apply (date_str_injective sample_day (datetime.Date 2024 3 7) Hv Hv eq_refl).
Defined.

Lemma stem_of_file_witness :
  ~ In 47%N module_file_name
  /\ module_file_name <> []
  /\ module_file_name <> lit "."
  /\ dag_id (dag (sample_directory ++ [47%N] ++ module_file_name) sample_days)
     = lit "example_params_ui_tutorial".
Proof.
  assert (H1 : ~ In 47%N module_file_name).
  { intros H. repeat (destruct H as [H|H]; [discriminate|]). exact H. }
  assert (H2 : module_file_name <> []) by discriminate.
  assert (H3 : module_file_name <> lit ".") by discriminate.
  split; [exact H1 | split; [exact H2 | split; [exact H3|]]].
  cbn [dag_id dag].
  rewrite (proj2 (stem_of_file sample_directory module_file_name H1 H2 H3)).
  reflexivity.
Defined.

Lemma hex2i_i2hex_witness :
  slider_range 136 /\ i2hex 136 = lit "88" /\ hex2i (i2hex 136) = 136%Z.
Proof.
  assert (H : slider_range 136) by (unfold slider_range; lia).
  split; [exact H | split; [reflexivity|]].
  apply (hex2i_i2hex 136 H).
Defined.

Lemma v_after_u_witness :
  slider_range (red moved_picker)
  /\ slider_range (green moved_picker)
  /\ slider_range (blue moved_picker)
  /\ field (u_name moved_picker) = lit "#FF8800"
  /\ v_name (u_name moved_picker) = u_name moved_picker
  /\ conf_updates (u_name moved_picker) = 1.
Proof.
  assert (Hr : slider_range (red moved_picker)) by (cbv; intuition discriminate).
  assert (Hg : slider_range (green moved_picker)) by (cbv; intuition discriminate).
  assert (Hb : slider_range (blue moved_picker)) by (cbv; intuition discriminate).
  split; [exact Hr | split; [exact Hg | split; [exact Hb | split; [reflexivity|]]]].
  destruct (v_after_u moved_picker Hr Hg Hb) as (H1 & _ & _ & _ & _ & H6 & _).
  split; [exact H1 | exact H6].
Defined.

Lemma u_after_v_witness :
  is_colour (field typed_picker)
  /\ field (u_name (v_name typed_picker)) = lit "#FF8800"
  /\ slider_range (red (v_name typed_picker)).
Proof.
  assert (H : is_colour (field typed_picker)).
  { exists (lit "ff8800"). repeat split. }
  split; [exact H|].
  destruct (u_after_v typed_picker H) as (Hr & _ & _ & _ & _ & _ & Hf).
  split; [rewrite Hf; reflexivity | exact Hr].
Defined.

(** The form is loaded with the default of [color_picker]: the sliders
    show its three components. *)
Example loaded_default_colour :
  loaded (lit "#FF8800")
  = {| red := 255; green := 136; blue := 0;
       field := lit "#FF8800"; preview := lit "#FF8800";
       conf_updates := 0 |}.
Proof. reflexivity. Qed.

(** A digit that is no hexadecimal digit in second place gives the value
    of another colour, and one in first place a negative value. *)
Example hex2i_wrong_digits :
  hex2i (lit "1G") = hex2i (lit "0F") /\ hex2i (lit "G0") = (-16)%Z.
Proof. split; reflexivity. Qed.

(** A value above the slider range is not written in two digits. *)
Example i2hex_out_of_range : i2hex 256 = lit "0".
Proof. reflexivity. Qed.

(** The functions modelled above stand in the text of [custom_html_form]
    of the entry [color_picker]. *)
Example script_in_custom_html_form :
  exists e form,
    param_entry (lit "color_picker") (params sample_days) = Some e
    /\ keyword e "custom_html_form" = Some (PStr form)
    /\ occurs_in (src "const hex_chars = `0123456789ABCDEF`;") form
    /\ occurs_in
         (src "return hex_chars.substr(parseInt(i / 16), 1) + hex_chars.substr(parseInt(i % 16), 1)")
         form
    /\ occurs_in
         (src "return hex_chars.indexOf(text.substr(0,1)) * 16 + hex_chars.indexOf(text.substr(1,1));")
         form
    /\ occurs_in (src "var hex_val = `#`+i2hex(`r_{name}`)+i2hex(`g_{name}`)+i2hex(`b_{name}`);") form
    /\ occurs_in (src "document.getElementById(`r_{name}`).value = hex2i(value.substr(1,2));") form.
Proof.
  eexists. eexists. split; [reflexivity|]. split; [reflexivity|].
  repeat split; apply occurs_inb_sound; vm_compute; reflexivity.
Qed.

(** Texts of surrogate code points are not told apart: a surrogate pair is
    written like the character it encodes. *)
Example surrogate_pair_text :
  encode_basestring_ascii [55357; 56832]%N = encode_basestring_ascii [128512%N].
Proof. reflexivity. Qed.

(** Stems of some names. *)
Example stem_examples :
  pathlib.stem (lit "/opt/.bashrc") = lit ".bashrc"
  /\ pathlib.stem (lit "a/b.tar.gz") = lit "b.tar"
  /\ pathlib.stem (lit "a/b./") = lit "b."
  /\ pathlib.stem (lit "/") = [].
Proof. repeat split. Qed.

(** The description of this DAG, and what a docstring without period would
    give. *)
Example description_examples :
  description (dag sample_directory sample_days)
  = lit "DAG demonstrating various options for a trigger form generated by DAG params"
  /\ first_sentence (lit "no period") = lit "no perio".
Proof. split; reflexivity. Qed.

End Samples.

(** * What the report contains, and equal configurations *)

Section Containment.
Context {F : PyFloat}.












Lemma pystr_eqb_refl (s : pystr) : pystr_eqb s s = true.
Proof. now apply pystr_eqb_eq. Qed.

Lemma same_mapping_nil (a b : list (pystr * pyval)) :
  same_mapping a b -> (a = [] <-> b = []).
Proof.
  intros H. split; intros ->.
  - destruct b as [|[k v] b]; [reflexivity|].
    specialize (H k). cbn in H. rewrite pystr_eqb_refl in H. discriminate.
  - destruct a as [|[k v] a]; [reflexivity|].
    specialize (H k). cbn in H. rewrite pystr_eqb_refl in H. discriminate.
Qed.

Lemma conf_same_mapping_truthy (c1 c2 : pyval) :
  conf_same_mapping c1 c2 -> truthy c1 = truthy c2.
Proof.
  destruct c1, c2; cbn [conf_same_mapping]; intros H;
    try (inversion H; subst; reflexivity).
  apply same_mapping_nil in H.
  destruct items as [|kv a], items0 as [|kv' b]; try reflexivity.
  - destruct H as [H _]. now discriminate H.
  - destruct H as [_ H]. now discriminate H.
Qed.

(** C9. The task is deterministic in the configuration as it is kept, an
    ordered sequence of items: two runs whose task instances carry the
    same configuration, item for item in the same order, add the same text
    to standard output and end the same way, whatever else the two worlds
    hold. Two runs whose configurations are equal as mappings only, the
    same keys and values in another order, end the same way as well,
    skipped or succeeded. *)
Theorem show_params_deterministic
    (w1 w2 : World) (ti1 ti2 : TaskInstance) :
  kwargs w1 !! "ti" = Some (CtxTaskInstance ti1) ->
  kwargs w2 !! "ti" = Some (CtxTaskInstance ti2) ->
  (conf (dag_run ti1) = conf (dag_run ti2) ->
   exists out r,
     stdout (show_params w1).1 = stdout w1 ++ out
     /\ stdout (show_params w2).1 = stdout w2 ++ out
     /\ (show_params w1).2 = r /\ (show_params w2).2 = r
     /\ task_state (show_params w1).2 = task_state (show_params w2).2)
  /\ (conf_same_mapping (conf (dag_run ti1)) (conf (dag_run ti2)) ->
      (show_params w1).2 = (show_params w2).2
      /\ task_state (show_params w1).2 = task_state (show_params w2).2).
Proof.
  intros H1 H2.
  destruct (show_params_from_empty w1) as [Ho1 Hr1].
  destruct (show_params_from_empty w2) as [Ho2 Hr2].
  destruct (emitted_run (kwargs w1) ti1 H1) as [He1 Hc1].
  destruct (emitted_run (kwargs w2) ti2 H2) as [He2 Hc2].
  split.
  - intros Hconf. rewrite Hconf in He1, Hc1.
    exists (emitted (kwargs w1)), (outcome (kwargs w1)).
    rewrite Ho1, Ho2, Hr1, Hr2, He1, He2, Hc1, Hc2.
    repeat split.
  - intros Hsame. apply conf_same_mapping_truthy in Hsame.
    rewrite Hr1, Hr2, Hc1, Hc2, Hsame. split; reflexivity.
Qed.

End Containment.

Section ContainmentRuns.
#[local] Existing Instance no_floats.



Lemma conf_ab_ba_same_mapping : same_mapping conf_ab conf_ba.
Proof.
  intros k. unfold conf_ab, conf_ba. cbn [dict_get].
  destruct (pystr_eqb k (lit "a")) eqn:Ea, (pystr_eqb k (lit "b")) eqn:Eb;
    try reflexivity.
  apply pystr_eqb_eq in Ea, Eb. subst. discriminate.
Qed.

(** Two runs that carry one mapping in two orders, from different worlds,
    end the same way. *)
Lemma show_params_deterministic_witness :
  kwargs (sample_world (PDict conf_ab)) !! "ti"
  = Some (CtxTaskInstance {| dag_run := {| conf := PDict conf_ab |} |})
  /\ kwargs (other_world (PDict conf_ba)) !! "ti"
     = Some (CtxTaskInstance {| dag_run := {| conf := PDict conf_ba |} |})
  /\ conf_same_mapping (PDict conf_ab) (PDict conf_ba)
  /\ (show_params (sample_world (PDict conf_ab))).2
     = (show_params (other_world (PDict conf_ba))).2.
Proof.
  assert (H1 : kwargs (sample_world (PDict conf_ab)) !! "ti"
               = Some (CtxTaskInstance {| dag_run := {| conf := PDict conf_ab |} |}))
    by reflexivity.
  assert (H2 : kwargs (other_world (PDict conf_ba)) !! "ti"
               = Some (CtxTaskInstance {| dag_run := {| conf := PDict conf_ba |} |}))
    by (vm_compute; reflexivity).
  split; [exact H1 | split; [exact H2 | split; [exact conf_ab_ba_same_mapping|]]].
  apply (proj2 (show_params_deterministic _ _ _ _ H1 H2)).
  exact conf_ab_ba_same_mapping.
Defined.

(** The same two configurations are printed differently, each in its own
    order. *)
Lemma reordered_conf_prints_differently :
  conf_same_mapping (PDict conf_ab) (PDict conf_ba)
  /\ emitted (task_kwargs (PDict conf_ab)) <> emitted (task_kwargs (PDict conf_ba))
  /\ outcome (task_kwargs (PDict conf_ab)) = outcome (task_kwargs (PDict conf_ba)).
Proof.
  split; [exact conf_ab_ba_same_mapping|]. split; [|reflexivity].
  intros H. apply pystr_eqb_eq in H. vm_compute in H. discriminate.
Qed.

End ContainmentRuns.
